(** * MSP dashboard API routes: a shallow embedding

    The three server routes of the dashboard are embedded here, with the
    parts of the pages that read their replies:

    - the organizations route ([Organizations]): token acquisition,
      the per-account aggregation [fetchAccountDetails], and the [GET]
      handler with its totals reducer;
    - the dashboard route ([Dashboard]): its own token acquisition, the
      two list fetches and the [GET] handler;
    - the credentials route ([Credentials]): [GET], [POST], [DELETE] over
      the process environment and the credentials file;
    - the dashboard component's [fetchData] ([DashboardView]), the
      critical-findings card ([CriticalFindingsCard]) and the device
      badge of the organizations view ([OrganizationsView]).

    The routes are TypeScript over values typed [any], so the data are
    embedded as JavaScript values ([JS.value]) with the language's own
    truthiness, property reads (which throw on [null]/[undefined]),
    [||], [+] and string conversion.  Asynchronous code is embedded as a
    small tree of [await] points ([Http.prog]) which has both a result
    against a fixed upstream ([Http.run]) and a step relation
    ([Http.step]) that exposes which requests are in flight. *)

From Stdlib Require Import ZArith List String Ascii Bool Lia DecimalString.
Import ListNotations.
Open Scope string_scope.
Open Scope Z_scope.
Set Warnings "-register-all".

(* ================================================================== *)
(** ** JavaScript values *)

Module JS.

(** Values reachable from [JSON.parse], plus [undefined] and [NaN] which
    arise from property reads and arithmetic.  Numbers are modelled as
    integers: every number the routes compute themselves is a [length] or
    a sum of lengths.  Strings are sequences of code units.  An object is
    the list of its own properties in insertion order.  A read by a name
    written in the source consults the own properties only, none of these
    names being one that objects inherit; the license histogram, whose
    keys are data, consults [Object.prototype] as well
    ([Organizations.count_license]). *)
Inductive value : Type :=
| VUndef
| VNull
| VBool (b : bool)
| VNum (z : Z)
| VNaN
| VStr (s : string)
| VArr (items : list value)
| VObj (props : list (string * value)).

(** Every thrown value in the routes is an [Error] instance: either
    [new Error(message)] or a runtime error (TypeError, SyntaxError,
    failed fetch), whose [message] text is the engine's. *)
Inductive exn : Type :=
| Error (message : string).

Definition message (e : exn) : string :=
  match e with Error m => m end.

Inductive result (A : Type) : Type :=
| Ok (a : A)
| Throw (e : exn).
Arguments Ok {A} a.
Arguments Throw {A} e.

Definition bind {A B : Type} (r : result A) (k : A -> result B) : result B :=
  match r with
  | Ok a => k a
  | Throw e => Throw e
  end.

Notation "'let*' x ':=' r 'in' k" := (bind r (fun x => k))
  (at level 10, x pattern, r at level 100, k at level 200).

(** [try { body } catch { handler }] for a body without awaits. *)
Definition try_catch {A : Type} (body : result A) (handler : exn -> A) : A :=
  match body with
  | Ok a => a
  | Throw e => handler e
  end.

(** ToBoolean. *)
Definition truthy (v : value) : bool :=
  match v with
  | VUndef | VNull | VNaN => false
  | VBool b => b
  | VNum z => negb (z =? 0)
  | VStr s => negb (String.eqb s "")
  | VArr _ | VObj _ => true
  end.

(** [a || b]. *)
Definition or (a b : value) : value := if truthy a then a else b.

(** [a === "literal"]. *)
Definition is_str (v : value) (lit : string) : bool :=
  match v with
  | VStr s => String.eqb s lit
  | _ => false
  end.

(** [a === n] for a number literal. *)
Definition is_num (v : value) (n : Z) : bool :=
  match v with
  | VNum z => z =? n
  | _ => false
  end.

Definition show_Z (z : Z) : string := NilZero.string_of_int (Z.to_int z).
Definition show_nat (n : nat) : string := NilZero.string_of_uint (Nat.to_uint n).

Fixpoint lookup (k : string) (props : list (string * value)) : value :=
  match props with
  | [] => VUndef
  | (k', v) :: rest => if String.eqb k k' then v else lookup k rest
  end.

(** Assignment [o[k] = v]: an existing property keeps its position. *)
Fixpoint set (k : string) (v : value) (props : list (string * value))
  : list (string * value) :=
  match props with
  | [] => [(k, v)]
  | (k', v') :: rest =>
      if String.eqb k k' then (k, v) :: rest else (k', v') :: set k v rest
  end.

Fixpoint indexed {A : Type} (i : nat) (l : list A) : list (string * A) :=
  match l with
  | [] => []
  | x :: rest => (show_nat i, x) :: indexed (S i) rest
  end.

Fixpoint chars (s : string) : list value :=
  match s with
  | EmptyString => []
  | String c rest => VStr (String c EmptyString) :: chars rest
  end.

(** Own enumerable properties, as copied by object spread [{...v}]. *)
Definition own_props (v : value) : list (string * value) :=
  match v with
  | VObj props => props
  | VArr items => indexed 0 items
  | VStr s => indexed 0 (chars s)
  | _ => []
  end.

(** [{...o, k1: v1, ...}]: later properties override earlier ones. *)
Definition assign (base : list (string * value)) (more : list (string * value))
  : list (string * value) :=
  fold_left (fun acc kv => set (fst kv) (snd kv) acc) more base.

Definition len (v : value) : value :=
  match v with
  | VArr items => VNum (Z.of_nat (List.length items))
  | VStr s => VNum (Z.of_nat (String.length s))
  | VObj props => lookup "length" props
  | _ => VUndef
  end.

(** Property read [v.k] of a data property.  Reading from [null] or
    [undefined] throws a TypeError, with the text the engine gives it. *)
Definition get (v : value) (k : string) : result value :=
  match v with
  | VUndef => Throw (Error ("Cannot read properties of undefined (reading '" ++ k ++ "')"))
  | VNull => Throw (Error ("Cannot read properties of null (reading '" ++ k ++ "')"))
  | VObj props => Ok (lookup k props)
  | VArr _ | VStr _ =>
      if String.eqb k "length" then Ok (len v) else Ok (lookup k (own_props v))
  | _ => Ok VUndef
  end.

(** Optional chaining [v?.k]. *)
Definition get_opt (v : value) (k : string) : value :=
  match v with
  | VUndef | VNull => VUndef
  | _ => match get v k with Ok x => x | Throw _ => VUndef end
  end.

(** ToString, as used by template literals, property keys and [+]. *)
Fixpoint to_string (v : value) : string :=
  match v with
  | VUndef => "undefined"
  | VNull => "null"
  | VBool true => "true"
  | VBool false => "false"
  | VNum z => show_Z z
  | VNaN => "NaN"
  | VStr s => s
  | VObj _ => "[object Object]"
  | VArr items =>
      (fix join (l : list value) : string :=
         match l with
         | [] => ""
         | x :: rest =>
             let sx := match x with
                       | VUndef | VNull => ""
                       | _ => to_string x
                       end in
             match rest with
             | [] => sx
             | _ :: _ => sx ++ "," ++ join rest
             end
         end) items
  end.

(** ToNumber on the primitives that can reach [+] here: [None] is NaN. *)
Definition to_number (v : value) : option Z :=
  match v with
  | VNum z => Some z
  | VNull => Some 0
  | VBool true => Some 1
  | VBool false => Some 0
  | _ => None
  end.

Definition stringish (v : value) : bool :=
  match v with
  | VStr _ | VArr _ | VObj _ => true
  | _ => false
  end.

(** [a + b]: concatenation as soon as one operand converts to a string
    primitive, numeric addition otherwise.  A number [VNum z] stands for
    the double of value [z].  JavaScript adds two integers exactly as long
    as the operands and the result are at most 2^53 in magnitude, and the
    addition here is exact: it is the language's on that range, which holds
    every length and count the routes compute.  Statements about sums of
    numbers that come from upstream state the range. *)
Definition add (a b : value) : value :=
  if stringish a || stringish b then VStr (to_string a ++ to_string b)
  else match to_number a, to_number b with
       | Some x, Some y => VNum (x + y)
       | _, _ => VNaN
       end.

(** The object has an own property of that name. *)
Definition has_own (k : string) (props : list (string * value)) : bool :=
  existsb (fun kv => String.eqb k (fst kv)) props.

(** The source text of a built-in function, as the engine prints it. *)
Definition native (name : string) : string :=
  "function " ++ name ++ "() { [native code] }".

(** What an object literal inherits from [Object.prototype]: eleven
    built-in functions and the accessor [__proto__], which reads the
    prototype object itself.  None of them is a [value]; each is truthy,
    and what is kept here is the text it converts to under [+]. *)
Definition object_prototype : list (string * string) :=
  [ ("constructor", native "Object");
    ("__defineGetter__", native "__defineGetter__");
    ("__defineSetter__", native "__defineSetter__");
    ("hasOwnProperty", native "hasOwnProperty");
    ("__lookupGetter__", native "__lookupGetter__");
    ("__lookupSetter__", native "__lookupSetter__");
    ("isPrototypeOf", native "isPrototypeOf");
    ("propertyIsEnumerable", native "propertyIsEnumerable");
    ("toString", native "toString");
    ("valueOf", native "valueOf");
    ("__proto__", "[object Object]");
    ("toLocaleString", native "toLocaleString") ].

Definition inherited (k : string) : option string :=
  match find (fun entry => String.eqb k (fst entry)) object_prototype with
  | Some entry => Some (snd entry)
  | None => None
  end.

(** [arr.filter(p).length] with a predicate that may throw; calling
    [.filter] on anything but an array throws a TypeError. *)
Fixpoint count_if (p : value -> result bool) (l : list value) : result Z :=
  match l with
  | [] => Ok 0
  | x :: rest =>
      let* b := p x in
      let* n := count_if p rest in
      Ok (if b then 1 + n else n)
  end.

Definition filter_length (v : value) (p : value -> result bool) : result value :=
  match v with
  | VArr items => let* n := count_if p items in Ok (VNum n)
  | VUndef => Throw (Error "Cannot read properties of undefined (reading 'filter')")
  | VNull => Throw (Error "Cannot read properties of null (reading 'filter')")
  | _ => Throw (Error "filter is not a function")
  end.

(** [s.includes(sub)] on strings. *)
Definition str_includes (s sub : string) : bool :=
  match String.index 0 sub s with
  | Some _ => true
  | None => false
  end.

(** [v?.includes(lit)] with a string literal: substring search on a
    string, membership in an array, [undefined] on [null]/[undefined],
    and a TypeError on anything else, which has no such method. *)
Definition includes_opt (v : value) (lit : string) : result value :=
  match v with
  | VUndef | VNull => Ok VUndef
  | VStr s => Ok (VBool (str_includes s lit))
  | VArr items => Ok (VBool (existsb (fun x => is_str x lit) items))
  | _ => Throw (Error "includes is not a function")
  end.

(** [JSON.parse(JSON.stringify(v))]: what the other side of a JSON reply
    sees.  Properties holding [undefined] are dropped; in an array
    [undefined] becomes [null]; NaN becomes [null]. *)
Fixpoint wire (v : value) : value :=
  match v with
  | VUndef | VNaN => VNull
  | VArr items => VArr (map wire items)
  | VObj props =>
      VObj ((fix each (ps : list (string * value)) : list (string * value) :=
               match ps with
               | [] => []
               | (k, x) :: rest =>
                   match x with
                   | VUndef => each rest
                   | _ => (k, wire x) :: each rest
                   end
               end) props)
  | _ => v
  end.

End JS.

(* ================================================================== *)
(** ** HTTP exchanges and asynchronous programs *)

Module Http.
Import JS.

(** The two shapes of [fetch] call the routes make: a POST with a JSON
    body, and a GET carrying an [Authorization] header. *)
Inductive request : Type :=
| Post (url : string) (body : value)
| Get (url : string) (authorization : string).

(** What the routes look at in a [Response]: [json] is the parse of the
    body, [None] when the body is not JSON (then [response.json()] and
    [JSON.parse] throw). *)
Record response : Type := {
  status : Z;
  statusText : string;
  text : string;
  json : option value
}.

(** A [fetch] promise settles either way. *)
Inductive outcome : Type :=
| Rejected (e : exn)
| Responded (r : response).

(** [response.ok] *)
Definition ok (r : response) : bool := (200 <=? status r) && (status r <=? 299).

Definition parse_json (r : response) : result value :=
  match json r with
  | Some v => Ok v
  | None => Throw (Error "Unexpected token in JSON")
  end.

(** The upstream service, as seen during one request of ours. *)
Definition upstream : Type := request -> outcome.

(** The reply of a route handler: [NextResponse.json(body, { status })]. *)
Record reply : Type := { code : Z; body : value }.

(** [Promise.all] over settled promises: fulfilled with all the values,
    or rejected with the error of the first rejected one. *)
Fixpoint promise_all {A : Type} (rs : list (result A)) : result (list A) :=
  match rs with
  | [] => Ok []
  | Ok v :: rest => let* vs := promise_all rest in Ok (v :: vs)
  | Throw e :: _ => Throw e
  end.

(** An asynchronous computation, cut at its [await] points.
    [Done r] is a settled promise, fulfilled ([Ok]) or rejected
    ([Throw]).  [Wait rq k] has issued [fetch(rq)] and is suspended on
    it.  [All tasks k] is suspended on [Promise.all(tasks)], every task
    having been started; [k] resumes with the values, or with the error
    when the [await] throws. *)
Inductive prog (A : Type) : Type :=
| Done (r : result A)
| Wait (rq : request) (k : outcome -> prog A)
| All (tasks : list (prog A)) (k : result (list A) -> prog A).
Arguments Done {A} r.
Arguments Wait {A} rq k.
Arguments All {A} tasks k.

(** [await p], in a [try], followed by [f]. *)
Fixpoint andThen {A : Type} (p : prog A) (f : result A -> prog A) : prog A :=
  match p with
  | Done r => f r
  | Wait rq k => Wait rq (fun o => andThen (k o) f)
  | All tasks k => All tasks (fun rs => andThen (k rs) f)
  end.

(** What a program settles to against a given upstream, when its tasks
    are run to the end. *)
Fixpoint run {A : Type} (w : upstream) (p : prog A) : result A :=
  match p with
  | Done r => r
  | Wait rq k => run w (k (w rq))
  | All tasks k => run w (k (promise_all (map (run w) tasks)))
  end.

(** Requests issued and not yet answered. *)
Fixpoint in_flight {A : Type} (p : prog A) : list request :=
  match p with
  | Done _ => []
  | Wait rq _ => [rq]
  | All tasks _ => flat_map in_flight tasks
  end.

Definition settled {A : Type} (p : prog A) : option (result A) :=
  match p with
  | Done r => Some r
  | _ => None
  end.

(** One turn of the event loop.  A response arrives and the task waiting
    for it runs up to its next [await]; or a [Promise.all] whose tasks
    are all fulfilled resumes with their values; or a [Promise.all] one
    of whose tasks is rejected resumes with that error, leaving the other
    tasks behind. *)
Inductive step {A : Type} (w : upstream) : prog A -> prog A -> Prop :=
| step_response (rq : request) (k : outcome -> prog A) :
    step w (Wait rq k) (k (w rq))
| step_task (before after : list (prog A)) (t t' : prog A)
            (k : result (list A) -> prog A) :
    step w t t' ->
    step w (All (before ++ t :: after) k) (All (before ++ t' :: after) k)
| step_fulfil (tasks : list (prog A)) (vs : list A) (k : result (list A) -> prog A) :
    map settled tasks = map (fun v => Some (Ok v)) vs ->
    step w (All tasks k) (k (Ok vs))
| step_reject (tasks : list (prog A)) (e : exn) (k : result (list A) -> prog A) :
    In (Done (Throw e)) tasks ->
    step w (All tasks k) (k (Throw e)).

Inductive steps {A : Type} (w : upstream) : prog A -> prog A -> Prop :=
| steps_refl (p : prog A) : steps w p p
| steps_step (p q r : prog A) : step w p q -> steps w q r -> steps w p r.

End Http.

(** [process.env]: the two variables the routes read. *)
Record process_env : Type := {
  BLUMIRA_CLIENT_ID : option string;
  BLUMIRA_CLIENT_SECRET : option string
}.

Definition env_value (x : option string) : JS.value :=
  match x with
  | Some s => JS.VStr s
  | None => JS.VUndef
  end.

(* ================================================================== *)
(** ** The organizations route *)

Module Organizations.
Import JS Http.

Definition AUTH_URL : string := "https://auth.blumira.com/oauth/token".
Definition API_BASE_URL : string := "https://api.blumira.com/public-api/v1".

Definition bearer (token : value) : string := "Bearer " ++ to_string token.

(** [getAccessToken]: the [catch] logs and rethrows, so every failure
    inside the [try] is the failure of the call. *)
Definition getAccessToken (env : process_env) : prog value :=
  let clientId := env_value (BLUMIRA_CLIENT_ID env) in
  let clientSecret := env_value (BLUMIRA_CLIENT_SECRET env) in
  if negb (truthy clientId) || negb (truthy clientSecret) then
    Done (Throw (Error
      "BLUMIRA_CLIENT_ID and BLUMIRA_CLIENT_SECRET environment variables are required"))
  else
    let payload := VObj [ ("grant_type", VStr "client_credentials");
                          ("client_id", clientId);
                          ("client_secret", clientSecret);
                          ("audience", VStr "public-api") ] in
    Wait (Post AUTH_URL payload) (fun fetched =>
      match fetched with
      | Rejected e => Done (Throw e)
      | Responded response =>
          if negb (ok response) then
            Done (Throw (Error ("Authentication failed (" ++ show_Z (status response)
                                ++ "): " ++ text response)))
          else
            Done (let* data := parse_json response in
                  get data "access_token")
      end).

(** The account-details block of [fetchAccountDetails]: the value of
    [accountDetails] once its [try]/[catch] is over. *)
Definition unwrap_details (fetched : outcome) : value :=
  match fetched with
  | Rejected _ => VNull
  | Responded accountResponse =>
      if ok accountResponse then
        try_catch
          (let* accountData := parse_json accountResponse in
           let* st := get accountData "status" in
           if is_str st "OK" then
             let* data := get accountData "data" in
             if truthy data then Ok data else Ok accountData
           else Ok accountData)
          (fun _ => VNull)
      else VNull
  end.

(** The devices, keys and findings blocks are the same code three times:
    the values of the list and of its meta once the [try]/[catch] is
    over. *)
Definition unwrap_list (fetched : outcome) : value * value :=
  match fetched with
  | Rejected _ => (VArr [], VNull)
  | Responded listResponse =>
      if ok listResponse then
        try_catch
          (let* listData := parse_json listResponse in
           let* st := get listData "status" in
           if is_str st "OK" then
             let* data := get listData "data" in
             if truthy data then
               let* meta := get listData "meta" in Ok (data, meta)
             else Ok (VArr [], VNull)
           else Ok (VArr [], VNull))
          (fun _ => (VArr [], VNull))
      else (VArr [], VNull)
  end.

(** The four filter predicates over devices. *)
Definition is_online (device : value) : result bool :=
  let* sleeping := get device "is_sleeping" in
  if negb (truthy sleeping) then
    let* alive := get device "alive" in Ok (truthy alive)
  else Ok false.

Definition flag (name : string) (device : value) : result bool :=
  let* f := get device name in Ok (truthy f).

Definition is_critical (f : value) : result bool :=
  let* priority := get f "priority" in Ok (is_num priority 1).

Definition is_open (f : value) : result bool :=
  let* status_name := get f "status_name" in Ok (is_str status_name "Open").

(** The computation after the four fetches, up to the [return]. *)
Definition summarize (accountDetails agentDevices agentDevicesMeta
                      agentKeys agentKeysMeta findings findingsMeta : value)
  : result value :=
  let* onlineDevices := filter_length agentDevices is_online in
  let* sleepingDevices := filter_length agentDevices (flag "is_sleeping") in
  let* isolatedDevices := filter_length agentDevices (flag "is_isolated") in
  let* excludedDevices := filter_length agentDevices (flag "is_excluded") in
  let* agentDeviceCount := get agentDevices "length" in
  let* agentKeyCount := get agentKeys "length" in
  let* findingsCount := get findings "length" in
  let* criticalFindingsCount := filter_length findings is_critical in
  let* openFindingsCount := filter_length findings is_open in
  Ok (VObj [ ("accountDetails", accountDetails);
             ("agentDevices", agentDevices);
             ("agentKeys", agentKeys);
             ("findings", findings);
             ("agentDeviceCount", agentDeviceCount);
             ("agentKeyCount", agentKeyCount);
             ("findingsCount", findingsCount);
             ("criticalFindingsCount", criticalFindingsCount);
             ("openFindingsCount", openFindingsCount);
             ("onlineDevices", onlineDevices);
             ("sleepingDevices", sleepingDevices);
             ("isolatedDevices", isolatedDevices);
             ("excludedDevices", excludedDevices);
             ("agent_count_available",
                or (get_opt accountDetails "agent_count_available") (VNum 0));
             ("agent_count_used",
                or (get_opt accountDetails "agent_count_used") (VNum 0));
             ("license", or (get_opt accountDetails "license") (VStr "Unknown"));
             ("user_count", or (get_opt accountDetails "user_count") (VNum 0));
             ("agentDevicesMeta", agentDevicesMeta);
             ("agentKeysMeta", agentKeysMeta);
             ("findingsMeta", findingsMeta) ]).

(** The object returned by the outer [catch]. *)
Definition empty_summary : value :=
  VObj [ ("accountDetails", VNull);
         ("agentDevices", VArr []);
         ("agentKeys", VArr []);
         ("findings", VArr []);
         ("agentDeviceCount", VNum 0);
         ("agentKeyCount", VNum 0);
         ("findingsCount", VNum 0);
         ("criticalFindingsCount", VNum 0);
         ("openFindingsCount", VNum 0);
         ("onlineDevices", VNum 0);
         ("sleepingDevices", VNum 0);
         ("isolatedDevices", VNum 0);
         ("excludedDevices", VNum 0);
         ("agent_count_available", VNum 0);
         ("agent_count_used", VNum 0);
         ("license", VStr "Unknown");
         ("user_count", VNum 0);
         ("agentDevicesMeta", VNull);
         ("agentKeysMeta", VNull);
         ("findingsMeta", VNull) ].

Definition account_url (accountId : value) : string :=
  API_BASE_URL ++ "/msp/accounts/" ++ to_string accountId.

(** [fetchAccountDetails]: four fetches, each awaited before the next is
    issued, then the summary; the outer [catch] turns any exception into
    [empty_summary], so the promise is never rejected. *)
Definition fetchAccountDetails (token accountId : value) : prog value :=
  Wait (Get (account_url accountId) (bearer token)) (fun accountResponse =>
    let accountDetails := unwrap_details accountResponse in
    Wait (Get (account_url accountId ++ "/agents/devices") (bearer token))
      (fun agentsResponse =>
        let '(agentDevices, agentDevicesMeta) := unwrap_list agentsResponse in
        Wait (Get (account_url accountId ++ "/agents/keys") (bearer token))
          (fun keysResponse =>
            let '(agentKeys, agentKeysMeta) := unwrap_list keysResponse in
            Wait (Get (account_url accountId ++ "/findings") (bearer token))
              (fun findingsResponse =>
                let '(findings, findingsMeta) := unwrap_list findingsResponse in
                Done (Ok (try_catch
                            (summarize accountDetails agentDevices agentDevicesMeta
                               agentKeys agentKeysMeta findings findingsMeta)
                            (fun _ => empty_summary))))))).

(** The callback mapped over the accounts:
    [{ ...account, ...details, id, name, open_findings }]. *)
Definition merge (account details : value) : result value :=
  let* id := get account "account_id" in
  let* name := get account "name" in
  let* open_findings := get account "open_findings" in
  let* openFindingsCount := get details "openFindingsCount" in
  Ok (VObj (assign (assign (own_props account) (own_props details))
              [ ("id", id); ("name", name);
                ("open_findings", or open_findings openFindingsCount) ])).

Definition org_task (token account : value) : prog value :=
  match get account "account_id" with
  | Throw e => Done (Throw e)
  | Ok accountId =>
      andThen (fetchAccountDetails token accountId) (fun settled =>
        Done (let* details := settled in merge account details))
  end.

(** One [reduce((sum, org) => sum + org.field, 0)]. *)
Definition sum_field (field : string) (orgs : list value) : result value :=
  fold_left (fun acc org =>
               let* sum := acc in
               let* x := get org field in
               Ok (add sum x))
            orgs (Ok (VNum 0)).

(** [acc[key] = (acc[key] || 0) + 1] on the accumulator of the license
    [reduce], an object that began as [{}].  The read finds an own
    property, or else what [Object.prototype] provides: a function, or the
    prototype object for [__proto__], which is truthy and which [+ 1]
    turns into a string.  The write makes an own property, except for
    [__proto__], whose setter ignores a string. *)
Definition count_license (key : string) (counts : list (string * value))
  : list (string * value) :=
  match (if has_own key counts then None else inherited key) with
  | None => set key (add (or (lookup key counts) (VNum 0)) (VNum 1)) counts
  | Some text =>
      if String.eqb key "__proto__" then counts
      else set key (VStr (text ++ "1")) counts
  end.

(** The license [reduce]:
    [acc[org.license] = (acc[org.license] || 0) + 1]. *)
Definition licenseBreakdown (orgs : list value) : result (list (string * value)) :=
  fold_left (fun acc org =>
               let* counts := acc in
               let* license := get org "license" in
               Ok (count_license (to_string license) counts))
            orgs (Ok []).

(** The pairs (total, summed field) of the [totals] literal, in order. *)
Definition summed_fields : list (string * string) :=
  [ ("totalAgentDevices", "agentDeviceCount");
    ("totalAgentKeys", "agentKeyCount");
    ("totalFindings", "findingsCount");
    ("totalCriticalFindings", "criticalFindingsCount");
    ("totalOpenFindings", "openFindingsCount");
    ("totalOnlineDevices", "onlineDevices");
    ("totalSleepingDevices", "sleepingDevices");
    ("totalIsolatedDevices", "isolatedDevices");
    ("totalExcludedDevices", "excludedDevices");
    ("totalAgentCountAvailable", "agent_count_available");
    ("totalAgentCountUsed", "agent_count_used");
    ("totalUserCount", "user_count") ].

Fixpoint sums (fields : list (string * string)) (orgs : list value)
  : result (list (string * value)) :=
  match fields with
  | [] => Ok []
  | (total, field) :: rest =>
      let* s := sum_field field orgs in
      let* more := sums rest orgs in
      Ok ((total, s) :: more)
  end.

Definition totals (orgs : list value) : result (list (string * value)) :=
  let* counts := sums summed_fields orgs in
  let* breakdown := licenseBreakdown orgs in
  Ok (counts ++ [("licenseBreakdown", VObj breakdown)])%list.

(** The accounts-list block of [GET]: the list and its meta, or the
    error thrown. *)
Definition unwrap_accounts (fetched : outcome) : result (value * value) :=
  match fetched with
  | Rejected e => Throw e
  | Responded accountsResponse =>
      if negb (ok accountsResponse) then
        Throw (Error ("Failed to fetch MSP accounts: "
                      ++ show_Z (status accountsResponse)))
      else
        let* accountsData := parse_json accountsResponse in
        let* st := get accountsData "status" in
        let* data := get accountsData "data" in
        if negb (is_str st "OK") || negb (truthy data) then
          Throw (Error "Invalid response format from MSP accounts endpoint")
        else
          let* meta := get accountsData "meta" in
          Ok (data, meta)
  end.

(** What [GET] does once [Promise.all] has settled: totals and the
    success body, or the error on its way to the [catch]. *)
Definition finish (accountsMeta : value) (timestamp : string)
                  (settled : result (list value)) : result value :=
  let* accountsWithDetails := settled in
  let* totals := totals accountsWithDetails in
  Ok (VObj [ ("organizations", VArr accountsWithDetails);
             ("meta", accountsMeta);
             ("totals", VObj totals);
             ("debug",
                VObj (assign
                        (assign
                           [("organizationCount",
                             VNum (Z.of_nat (List.length accountsWithDetails)))]
                           totals)
                        [("timestamp", VStr timestamp)])) ]).

(** [Promise.all(accounts.map(async (account) => ...))]: every task is
    started by the [map], then all are awaited together. *)
Definition fan_out (token accounts accountsMeta : value) (timestamp : string)
  : prog value :=
  match accounts with
  | VArr items =>
      All (map (org_task token) items)
          (fun settled => Done (finish accountsMeta timestamp settled))
  | _ => Done (Throw (Error "accounts.map is not a function"))
  end.

(** The [try] block of [GET]; [timestamp] is what
    [new Date().toISOString()] yields when the reply is built. *)
Definition GET_try (env : process_env) (timestamp : string) : prog value :=
  andThen (getAccessToken env) (fun acquired =>
    match acquired with
    | Throw e => Done (Throw e)
    | Ok token =>
        Wait (Get (API_BASE_URL ++ "/msp/accounts") (bearer token)) (fun fetched =>
          match unwrap_accounts fetched with
          | Throw e => Done (Throw e)
          | Ok (accounts, accountsMeta) => fan_out token accounts accountsMeta timestamp
          end)
    end).

(** The reply, with the [catch] block of [GET]. *)
Definition GET_reply (timestamp : string) (r : result value) : reply :=
  match r with
  | Ok body => {| code := 200; body := body |}
  | Throw error =>
      {| code := 500;
         body := VObj [ ("error", VStr (message error));
                        ("timestamp", VStr timestamp) ] |}
  end.

Definition GET (w : upstream) (env : process_env) (timestamp : string) : reply :=
  GET_reply timestamp (run w (GET_try env timestamp)).

End Organizations.

(* ================================================================== *)
(** ** The dashboard route *)

Module Dashboard.
Import JS Http.

Definition AUTH_URL : string := "https://auth.blumira.com/oauth/token".

(** [responseText || response.statusText] *)
Definition text_or_status (response : Http.response) : string :=
  if String.eqb (text response) "" then statusText response else text response.

(** [getAccessToken] of the dashboard route: the body is read as text,
    parsed, and checked for the token before it is returned. *)
Definition getAccessToken (env : process_env) : prog value :=
  let clientId := env_value (BLUMIRA_CLIENT_ID env) in
  let clientSecret := env_value (BLUMIRA_CLIENT_SECRET env) in
  if negb (truthy clientId) || negb (truthy clientSecret) then
    Done (Throw (Error
      "BLUMIRA_CLIENT_ID and BLUMIRA_CLIENT_SECRET environment variables are required"))
  else
    let payload := VObj [ ("grant_type", VStr "client_credentials");
                          ("client_id", clientId);
                          ("client_secret", clientSecret);
                          ("audience", VStr "public-api") ] in
    Wait (Post AUTH_URL payload) (fun fetched =>
      match fetched with
      | Rejected e => Done (Throw e)
      | Responded response =>
          if negb (ok response) then
            Done (Throw (Error ("Authentication failed (" ++ show_Z (status response)
                                ++ "): " ++ text_or_status response)))
          else
            match parse_json response with
            | Throw _ =>
                Done (Throw (Error "Invalid JSON response from authentication endpoint"))
            | Ok data =>
                Done (let* access_token := get data "access_token" in
                      if negb (truthy access_token) then
                        Throw (Error
                          "No access token received from authentication endpoint")
                      else Ok access_token)
            end
      end).

Definition API_BASE_URL : string := "https://api.blumira.com/public-api/v1".

Definition bearer (token : value) : string := "Bearer " ++ to_string token.

(** [fetchMspAccounts]: the [catch] logs and rethrows.  The payload is
    [data.data || []], whatever else the body holds. *)
Definition fetchMspAccounts (token : value) : prog value :=
  Wait (Get (API_BASE_URL ++ "/msp/accounts") (bearer token)) (fun fetched =>
    match fetched with
    | Rejected e => Done (Throw e)
    | Responded response =>
        if negb (ok response) then
          Done (Throw (Error ("Failed to fetch MSP accounts ("
                              ++ show_Z (status response) ++ "): "
                              ++ text_or_status response)))
        else
          match parse_json response with
          | Throw _ =>
              Done (Throw (Error "Invalid JSON response from MSP accounts endpoint"))
          | Ok data =>
              Done (let* payload := get data "data" in
                    Ok (or payload (VArr [])))
          end
    end).

(** [fetchAllFindings]: as above, with its own message for a 403. *)
Definition fetchAllFindings (token : value) : prog value :=
  Wait (Get (API_BASE_URL ++ "/msp/accounts/findings") (bearer token)) (fun fetched =>
    match fetched with
    | Rejected e => Done (Throw e)
    | Responded response =>
        if negb (ok response) then
          if status response =? 403 then
            Done (Throw (Error
              "Permission denied to fetch findings. Please check your API permissions."))
          else
            Done (Throw (Error ("Failed to fetch findings ("
                                ++ show_Z (status response) ++ "): "
                                ++ text_or_status response)))
        else
          match parse_json response with
          | Throw _ =>
              Done (Throw (Error "Invalid JSON response from findings endpoint"))
          | Ok data =>
              Done (let* payload := get data "data" in
                    Ok (or payload (VArr [])))
          end
    end).

(** [try { x = await f() } catch { }] over [let x = []]. *)
Definition or_empty (settled : result value) : value :=
  match settled with
  | Ok v => v
  | Throw _ => VArr []
  end.

(** The [try] block of [GET]: the two fetches are awaited one after the
    other, each in its own [try]. *)
Definition GET_try (env : process_env) (timestamp : string) : prog value :=
  andThen (getAccessToken env) (fun acquired =>
    match acquired with
    | Throw e => Done (Throw e)
    | Ok token =>
        andThen (fetchMspAccounts token) (fun fetchedAccounts =>
          let accounts := or_empty fetchedAccounts in
          andThen (fetchAllFindings token) (fun fetchedFindings =>
            let findings := or_empty fetchedFindings in
            Done (let* accountsCount := get accounts "length" in
                  let* findingsCount := get findings "length" in
                  Ok (VObj [ ("accounts", accounts);
                             ("findings", findings);
                             ("debug",
                              VObj [ ("accountsCount", accountsCount);
                                     ("findingsCount", findingsCount);
                                     ("timestamp", VStr timestamp) ]) ]))))
    end).

(** The reply, with the [catch] block of [GET]. *)
Definition GET_reply (env : process_env) (timestamp : string) (r : result value) : reply :=
  match r with
  | Ok body => {| code := 200; body := body |}
  | Throw error =>
      {| code := 500;
         body :=
           VObj [ ("error", VStr (message error));
                  ("details",
                   VObj [ ("message", VStr (message error));
                          ("timestamp", VStr timestamp);
                          ("hasClientId",
                           VBool (truthy (env_value (BLUMIRA_CLIENT_ID env))));
                          ("hasClientSecret",
                           VBool (truthy (env_value (BLUMIRA_CLIENT_SECRET env)))) ]) ] |}
  end.

Definition GET (w : upstream) (env : process_env) (timestamp : string) : reply :=
  GET_reply env timestamp (run w (GET_try env timestamp)).

End Dashboard.

(* ================================================================== *)
(** ** The credentials route *)

Module Credentials.
Import JS Http.

(** What the handlers read and write: [process.env] and the credentials
    file ([None] when it does not exist). *)
Record state : Type := {
  env : process_env;
  file : option string
}.

Definition newline : ascii := "010"%char.

(** [s.split("\n")] *)
Fixpoint split_lines (s : string) : list string :=
  match s with
  | EmptyString => [EmptyString]
  | String c rest =>
      if Ascii.eqb c newline then EmptyString :: split_lines rest
      else match split_lines rest with
           | [] => [String c EmptyString]
           | line :: more => String c line :: more
           end
  end.

(** [lines.join("\n")] *)
Definition join_lines (lines : list string) : string :=
  String.concat (String newline EmptyString) lines.

(** The filter that drops the two credential lines. *)
Definition kept (line : string) : bool :=
  negb (String.prefix "BLUMIRA_CLIENT_ID=" line)
  && negb (String.prefix "BLUMIRA_CLIENT_SECRET=" line).

Definition GET (s : state) : reply :=
  let clientId := env_value (BLUMIRA_CLIENT_ID (env s)) in
  let clientSecret := env_value (BLUMIRA_CLIENT_SECRET (env s)) in
  let hasClientId := truthy clientId in
  let hasClientSecret := truthy clientSecret in
  {| code := 200;
     body := VObj [ ("hasCredentials", VBool (hasClientId && hasClientSecret));
                    ("hasClientId", VBool hasClientId);
                    ("hasClientSecret", VBool hasClientSecret);
                    ("clientIdLength", or (get_opt clientId "length") (VNum 0));
                    ("clientSecretLength", or (get_opt clientSecret "length") (VNum 0)) ] |}.

Definition failed (what : string) : reply :=
  {| code := 500; body := VObj [("error", VStr what)] |}.

(** [return NextResponse.json(...)], with the state the handler leaves. *)
Definition respond (r : reply) (s : state) : prog (reply * state) :=
  Done (Ok (r, s)).

(** [POST]: [requestBody] is the parse of the request body, [None] when
    [request.json()] throws.  Everything thrown inside the handler ends
    in the 500 reply of its [catch], with the state as it was. *)
Definition POST (s : state) (requestBody : option value) : prog (reply * state) :=
  let failure := respond (failed "Failed to update credentials") s in
  match requestBody with
  | None => failure
  | Some parsed =>
      match (let* clientId := get parsed "clientId" in
             let* clientSecret := get parsed "clientSecret" in
             Ok (clientId, clientSecret)) with
      | Throw _ => failure
      | Ok (clientId, clientSecret) =>
          if negb (truthy clientId) || negb (truthy clientSecret) then
            respond {| code := 400;
                       body := VObj [("error",
                                      VStr "Client ID and Client Secret are required")] |}
                    s
          else
            Wait (Post "https://auth.blumira.com/oauth/token"
                       (VObj [ ("grant_type", VStr "client_credentials");
                               ("client_id", clientId);
                               ("client_secret", clientSecret);
                               ("audience", VStr "public-api") ]))
              (fun fetched =>
                 match fetched with
                 | Rejected _ => failure
                 | Responded authResponse =>
                     if negb (ok authResponse) then
                       respond {| code := 401;
                                  body := VObj [ ("error", VStr "Invalid credentials");
                                                 ("details",
                                                  VStr ("Authentication failed: "
                                                        ++ text authResponse)) ] |}
                               s
                     else
                       match (let* authData := parse_json authResponse in
                              get authData "access_token") with
                       | Throw _ => failure
                       | Ok access_token =>
                           if negb (truthy access_token) then
                             respond {| code := 401;
                                        body := VObj [("error",
                                          VStr "Invalid response from authentication server")] |}
                                     s
                           else
                             let envContent :=
                               match file s with
                               | Some content => content
                               | None => EmptyString
                               end in
                             let idLine := "BLUMIRA_CLIENT_ID=" ++ to_string clientId in
                             let secretLine :=
                               "BLUMIRA_CLIENT_SECRET=" ++ to_string clientSecret in
                             let lines :=
                               List.app (filter kept (split_lines envContent))
                                        [idLine; secretLine] in
                             respond
                               {| code := 200;
                                  body := VObj [ ("success", VBool true);
                                                 ("message",
                                                  VStr "Credentials updated successfully");
                                                 ("hasCredentials", VBool true) ] |}
                               {| env := {| BLUMIRA_CLIENT_ID := Some (to_string clientId);
                                            BLUMIRA_CLIENT_SECRET :=
                                              Some (to_string clientSecret) |};
                                  file := Some (join_lines lines) |}
                       end
                 end)
      end
  end.

Definition DELETE (s : state) : reply * state :=
  ({| code := 200;
      body := VObj [ ("success", VBool true);
                     ("message", VStr "Credentials removed successfully");
                     ("hasCredentials", VBool false) ] |},
   {| env := {| BLUMIRA_CLIENT_ID := None; BLUMIRA_CLIENT_SECRET := None |};
      file := match file s with
              | Some envContent =>
                  Some (join_lines (filter kept (split_lines envContent)))
              | None => None
              end |}).

End Credentials.

(* ================================================================== *)
(** ** The dashboard component: loading the data *)

Module DashboardView.
Import JS Http.

(** The pieces of component state that [fetchData] sets. *)
Record state : Type := {
  data : value;
  error : option string;
  credentialsError : bool;
  loading : bool;
  refreshing : bool
}.

(** What the browser receives for a reply of one of the routes: the body
    has gone through JSON. *)
Definition served (r : reply) : outcome :=
  Responded {| status := code r; statusText := EmptyString; text := EmptyString;
               json := Some (wire (body r)) |}.

(** The test that flags an error as a credentials problem. *)
Definition credentials_shaped (result : value) : JS.result bool :=
  let* error := get result "error" in
  let* id := includes_opt error "BLUMIRA_CLIENT_ID" in
  if truthy id then Ok true
  else
    let* secret := includes_opt error "BLUMIRA_CLIENT_SECRET" in
    if truthy secret then Ok true
    else
      let* failed := includes_opt error "Authentication failed" in
      Ok (truthy failed).

(** [fetchData], from the state it starts in and what the fetch of the
    dashboard route settles to, to the state once its [finally] is over. *)
Definition fetchData (s : state) (fetched : outcome) : state :=
  let failed (flagged : bool) (e : exn) :=
    {| data := data s; error := Some (message e); credentialsError := flagged;
       loading := false; refreshing := false |} in
  match fetched with
  | Rejected e => failed false e
  | Responded response =>
      match parse_json response with
      | Throw e => failed false e
      | Ok result =>
          if negb (ok response) then
            match (let* details := get result "details" in
                   credentials_shaped result) with
            | Throw e => failed false e
            | Ok flagged =>
                failed flagged
                       (Error (to_string (or (get_opt result "error")
                                             (VStr "Failed to fetch data"))))
            end
          else
            match (let* accounts := get result "accounts" in
                   let* findings := get result "findings" in
                   get result "debug") with
            | Throw e => failed false e
            | Ok _ =>
                {| data := result; error := None; credentialsError := false;
                   loading := false; refreshing := false |}
            end
      end
  end.

End DashboardView.

(* ================================================================== *)
(** ** The critical-findings card *)

Module CriticalFindingsCard.
Import JS.





End CriticalFindingsCard.

(* ================================================================== *)
(** ** The organizations view: the badge of a device *)

Module OrganizationsView.
Import JS.

Inductive badge : Type := Excluded | Isolated | Sleeping | Online.

(** [getDeviceStatusBadge]: the first flag that holds decides. *)
Definition getDeviceStatusBadge (device : value) : result badge :=
  let* is_excluded := get device "is_excluded" in
  if truthy is_excluded then Ok Excluded
  else
    let* is_isolated := get device "is_isolated" in
    if truthy is_isolated then Ok Isolated
    else
      let* is_sleeping := get device "is_sleeping" in
      if truthy is_sleeping then Ok Sleeping else Ok Online.

End OrganizationsView.

(* ================================================================== *)
(** ** Vocabulary of the statements *)

Module Obs.
Import JS Http.

(** The elements of an array value. *)
Definition items (v : value) : list value :=
  match v with
  | VArr l => l
  | _ => []
  end.

(** A flag of a device, read as a condition. *)
Definition has (name : string) (device : value) : bool :=
  truthy (get_opt device name).

(** The number of elements satisfying a condition. *)
Definition count (p : value -> bool) (l : list value) : Z :=
  Z.of_nat (List.length (filter p l)).

(** The condition of the online filter. *)
Definition online (device : value) : bool :=
  negb (has "is_sleeping" device) && has "alive" device.

(** The number a field holds, 0 when it is not a number. *)
Definition num (v : value) : Z :=
  match v with
  | VNum z => z
  | _ => 0
  end.

Definition is_number (v : value) : Prop := exists z, v = VNum z.

(** [sub] occurs in [s]. *)
Definition contains (sub s : string) : Prop :=
  exists before after, s = before ++ sub ++ after.

(** A fetch that fails: rejected, answered outside 2xx, or answered with
    a body on which parsing or the first property read throws. *)
Definition fetch_failed (o : outcome) : Prop :=
  match o with
  | Rejected _ => True
  | Responded r =>
      ok r = false \/
      exists e, (let* data := parse_json r in get data "status") = Throw e
  end.

(** The device-status claim read on a summary: no device is counted
    twice, so the four buckets together hold at most every device. *)
Definition at_most_one_bucket (summary : value) : Prop :=
  num (get_opt summary "onlineDevices") + num (get_opt summary "sleepingDevices")
  + num (get_opt summary "isolatedDevices") + num (get_opt summary "excludedDevices")
  <= num (get_opt summary "agentDeviceCount").

(** The envelope claim read on one fetcher: a 2xx body whose [status]
    is not "OK" is itself the payload. *)
Definition falls_back_to_body (payload_of : outcome -> value) : Prop :=
  forall (r : response) (body st : value),
    ok r = true -> json r = Some body ->
    get body "status" = Ok st -> is_str st "OK" = false ->
    payload_of (Responded r) = body.

Definition is_object (v : value) : Prop := exists props, v = VObj props.

(** A value whose properties can be read: anything but [null] and
    [undefined]. *)
Definition readable (v : value) : Prop := forall k, exists x, get v k = Ok x.

(** A license that is not the name of anything [{}] inherits. *)
Definition ordinary (license : string) : Prop := inherited license = None.

(** What a histogram holds for a key seen [n] times. *)
Definition tally (n : nat) : value :=
  match n with
  | O => VUndef
  | S _ => VNum (Z.of_nat n)
  end.

(** The sum of a list of integers. *)
Definition sum (l : list Z) : Z := fold_right Z.add 0 l.


(** The condition of the open-findings filter. *)
Definition open_finding (f : value) : bool :=
  is_str (get_opt f "status_name") "Open".

(** The condition of the critical-findings filter. *)
Definition critical_finding (f : value) : bool :=
  is_num (get_opt f "priority") 1.


Definition findings_request (token accountId : value) : request :=
  Get (Organizations.account_url accountId ++ "/findings") (Organizations.bearer token).

Definition accounts_request (token : value) : request :=
  Get (Organizations.API_BASE_URL ++ "/msp/accounts") (Organizations.bearer token).






(** The property names of a summary, in the order of the literal. *)
Definition summary_keys : list string :=
  [ "accountDetails"; "agentDevices"; "agentKeys"; "findings";
    "agentDeviceCount"; "agentKeyCount"; "findingsCount";
    "criticalFindingsCount"; "openFindingsCount";
    "onlineDevices"; "sleepingDevices"; "isolatedDevices"; "excludedDevices";
    "agent_count_available"; "agent_count_used"; "license"; "user_count";
    "agentDevicesMeta"; "agentKeysMeta"; "findingsMeta" ].

(** The request [getAccessToken] makes for a client id and secret. *)
Definition token_request (id secret : string) : request :=
  Post Organizations.AUTH_URL
       (VObj [ ("grant_type", VStr "client_credentials");
               ("client_id", VStr id);
               ("client_secret", VStr secret);
               ("audience", VStr "public-api") ]).

Definition details_request (token accountId : value) : request :=
  Get (Organizations.account_url accountId) (Organizations.bearer token).

Definition devices_request (token accountId : value) : request :=
  Get (Organizations.account_url accountId ++ "/agents/devices")
      (Organizations.bearer token).

Definition keys_request (token accountId : value) : request :=
  Get (Organizations.account_url accountId ++ "/agents/keys")
      (Organizations.bearer token).

(** A fetch that brings no element: it fails, or its body holds an
    empty [data]. *)
Definition brings_nothing (o : outcome) : Prop :=
  fetch_failed o \/
  exists r body, o = Responded r /\ json r = Some body /\ get body "data" = Ok (VArr []).

(** An array all of whose elements can be read. *)
Definition readable_array (v : value) : Prop :=
  exists l, v = VArr l /\ Forall readable l.

(** The three properties the mapped callback sets itself. *)
Definition callback_keys : list string := ["id"; "name"; "open_findings"].

Definition mem (k : string) (keys : list string) : bool :=
  existsb (String.eqb k) keys.



(** The text of the credentials file, empty when there is none. *)
Definition content (s : Credentials.state) : string :=
  match Credentials.file s with
  | Some c => c
  | None => EmptyString
  end.

(** The token endpoint accepts a client id and secret: a 2xx answer
    whose body holds a truthy [access_token]. *)
Definition accepted (w : upstream) (clientId clientSecret : value) : Prop :=
  exists r data token,
    w (Post "https://auth.blumira.com/oauth/token"
            (VObj [ ("grant_type", VStr "client_credentials");
                    ("client_id", clientId);
                    ("client_secret", clientSecret);
                    ("audience", VStr "public-api") ])) = Responded r /\
    ok r = true /\ json r = Some data /\
    get data "access_token" = Ok token /\ truthy token = true.

(** The state an accepted [POST] leaves. *)
Definition stored (s : Credentials.state) (clientId clientSecret : value)
  : Credentials.state :=
  {| Credentials.env :=
       {| BLUMIRA_CLIENT_ID := Some (to_string clientId);
          BLUMIRA_CLIENT_SECRET := Some (to_string clientSecret) |};
     Credentials.file :=
       Some (Credentials.join_lines
               (List.app (filter Credentials.kept (Credentials.split_lines (content s)))
                         [ "BLUMIRA_CLIENT_ID=" ++ to_string clientId;
                           "BLUMIRA_CLIENT_SECRET=" ++ to_string clientSecret ])) |}.

(** A string without a line break. *)
Fixpoint no_newline (s : string) : bool :=
  match s with
  | EmptyString => true
  | String c rest => negb (Ascii.eqb c Credentials.newline) && no_newline rest
  end.

(** The two list requests of the dashboard route. *)
Definition msp_accounts_request (token : value) : request :=
  Get (Dashboard.API_BASE_URL ++ "/msp/accounts") (Dashboard.bearer token).

Definition msp_findings_request (token : value) : request :=
  Get (Dashboard.API_BASE_URL ++ "/msp/accounts/findings") (Dashboard.bearer token).

(** A list fetch of the dashboard route has failed: the fetch rejected,
    the answer is outside 2xx, or its body is not JSON with a [data] that
    can be read. *)
Definition listing_failed (o : outcome) : Prop :=
  match o with
  | Rejected _ => True
  | Responded r =>
      ok r = false \/
      exists e, (let* data := parse_json r in get data "data") = Throw e
  end.

(** Where a request goes. *)
Definition target (rq : request) : string :=
  match rq with
  | Post url _ => url
  | Get url _ => url
  end.

(** The credentials are missing, or the token endpoint turns them down. *)
Definition credentials_problem (w : upstream) (env : process_env) : Prop :=
  truthy (env_value (BLUMIRA_CLIENT_ID env)) = false \/
  truthy (env_value (BLUMIRA_CLIENT_SECRET env)) = false \/
  exists id secret r,
    BLUMIRA_CLIENT_ID env = Some id /\ BLUMIRA_CLIENT_SECRET env = Some secret /\
    w (token_request id secret) = Responded r /\ ok r = false.

(** The token endpoint answers within 2xx, to credentials that are set,
    with a body that is not JSON or holds no truthy [access_token]. *)
Definition token_missing (w : upstream) (env : process_env) : Prop :=
  exists id secret r,
    BLUMIRA_CLIENT_ID env = Some id /\ id <> EmptyString /\
    BLUMIRA_CLIENT_SECRET env = Some secret /\ secret <> EmptyString /\
    w (token_request id secret) = Responded r /\ ok r = true /\
    (json r = None \/
     exists data token,
       json r = Some data /\ get data "access_token" = Ok token /\ truthy token = false).

(** The device is shown with the given badge. *)
Definition shows (b : OrganizationsView.badge) (device : value) : bool :=
  match OrganizationsView.getDeviceStatusBadge device, b with
  | Ok OrganizationsView.Excluded, OrganizationsView.Excluded
  | Ok OrganizationsView.Isolated, OrganizationsView.Isolated
  | Ok OrganizationsView.Sleeping, OrganizationsView.Sleeping
  | Ok OrganizationsView.Online, OrganizationsView.Online => true
  | _, _ => false
  end.

(** The number of devices shown with the given badge. *)
Definition badged (b : OrganizationsView.badge) (devices : list value) : Z :=
  count (shows b) devices.



(** A line of the file that is not a credential line. *)
Definition foreign (line : string) : Prop := Credentials.kept line = true.

End Obs.

(* ================================================================== *)
(** ** Sample upstreams and inputs *)

Module Samples.
Import JS Http.

Definition json_response (code : Z) (payload : value) : response :=
  {| status := code; statusText := ""; text := ""; json := Some payload |}.

Definition wrapped (data : value) : value :=
  VObj [("status", VStr "OK"); ("data", data); ("meta", VObj [])].

Definition unreachable : outcome := Rejected (Error "fetch failed").

(** An upstream that answers one GET url and nothing else. *)
Definition only (url : string) (r : response) : upstream :=
  fun rq =>
    match rq with
    | Get u _ => if String.eqb u url then Responded r else unreachable
    | Post _ _ => unreachable
    end.

Definition token : value := VStr "tok".
Definition acme : value := VStr "acme".

(** A device that is excluded, isolated and sleeping at once. *)
Definition parked_device : value :=
  VObj [ ("device_id", VStr "d-1"); ("alive", VStr "2024-05-01T00:00:00Z");
         ("is_excluded", VBool true); ("is_isolated", VBool true);
         ("is_sleeping", VBool true) ].

Definition parked_upstream : upstream :=
  only (Organizations.account_url acme ++ "/agents/devices")
       (json_response 200 (wrapped (VArr [parked_device]))).

(** A devices answer without the envelope: the bare array. *)
Definition bare_devices : response := json_response 200 (VArr [parked_device]).

(** The same array inside the envelope. *)
Definition wrapped_devices : response :=
  json_response 200 (wrapped (VArr [parked_device])).

(** An upstream whose token endpoint gives one answer and whose other
    endpoints are answered by [rest]. *)
Definition token_endpoint (r : response) (rest : upstream) : upstream :=
  fun rq =>
    match rq with
    | Post u _ => if String.eqb u Organizations.AUTH_URL then Responded r else unreachable
    | Get _ _ => rest rq
    end.

Definition nowhere : upstream := fun _ => unreachable.

Definition configured : process_env :=
  {| BLUMIRA_CLIENT_ID := Some "client-id"; BLUMIRA_CLIENT_SECRET := Some "s3cret" |}.

(** A 200 answer of the token endpoint that carries no [access_token]. *)
Definition tokenless : response :=
  json_response 200 (VObj [("token_type", VStr "Bearer"); ("expires_in", VNum 3600)]).

(** An upstream given by a table of GET urls. *)
Definition routes (table : list (string * response)) : upstream :=
  fun rq =>
    match rq with
    | Get u _ =>
        match find (fun entry => String.eqb u (fst entry)) table with
        | Some entry => Responded (snd entry)
        | None => unreachable
        end
    | Post _ _ => unreachable
    end.

Definition token_answer : response :=
  json_response 200 (VObj [("access_token", token); ("token_type", VStr "Bearer")]).

Definition acme_account : value :=
  VObj [("account_id", acme); ("name", VStr "Acme"); ("open_findings", VNum 0)].

Definition globex : value := VStr "globex".

Definition globex_account : value :=
  VObj [("account_id", globex); ("name", VStr "Globex"); ("open_findings", VNum 7)].

Definition finding (name status_name : string) (priority : Z) : value :=
  VObj [("name", VStr name); ("status_name", VStr status_name);
        ("priority", VNum priority)].

Definition accounts_url : string := Organizations.API_BASE_URL ++ "/msp/accounts".

(** Two accounts; the findings fetch of the first is answered 503. *)
Definition fleet : upstream :=
  token_endpoint token_answer
    (routes
       [ (accounts_url, json_response 200 (wrapped (VArr [acme_account; globex_account])));
         (Organizations.account_url acme ++ "/findings",
          json_response 503 (VObj [("message", VStr "unavailable")]));
         (Organizations.account_url globex ++ "/findings",
          json_response 200
            (wrapped (VArr [finding "phish" "Open" 1; finding "scan" "Closed" 3]))) ]).

(** One account, reported with no open findings by the accounts list,
    whose own findings hold an open one. *)
Definition recount : upstream :=
  routes
    [ (Organizations.account_url acme ++ "/findings",
       json_response 200
         (wrapped (VArr [finding "phish" "Open" 1; finding "scan" "Closed" 3]))) ].

(** The accounts list is answered 503. *)
Definition accounts_down : upstream :=
  token_endpoint token_answer
    (routes [ (accounts_url, json_response 503 (VObj [])) ]).

(** One account whose details name the license "constructor". *)
Definition oddly_licensed : upstream :=
  token_endpoint token_answer
    (routes
       [ (accounts_url, json_response 200 (wrapped (VArr [acme_account])));
         (Organizations.account_url acme,
          json_response 200 (wrapped (VObj [("license", VStr "constructor")]))) ]).

(** An organization record reduced to what the totals read of it here. *)
Definition org_with (findingsCount : Z) (license : string) : value :=
  VObj [("findingsCount", VNum findingsCount); ("license", VStr license)].

Definition three_orgs : list value :=
  [org_with 2 "FREE"; org_with 0 "Enterprise"; org_with 3 "FREE"].

(** An upstream whose token endpoint accepts what it is sent. *)
Definition accepting : upstream := token_endpoint token_answer nowhere.

Definition unconfigured : Credentials.state :=
  {| Credentials.env := {| BLUMIRA_CLIENT_ID := None; BLUMIRA_CLIENT_SECRET := None |};
     Credentials.file := Some "NODE_ENV=development" |}.

Definition submitted : value :=
  VObj [("clientId", VStr "client-id"); ("clientSecret", VStr "s3cret")].

(** An accounts answer without the envelope's [status]. *)
Definition unstamped : upstream :=
  token_endpoint token_answer
    (routes [ (accounts_url,
               json_response 200 (VObj [("data", VArr [acme_account])])) ]).

(** The dashboard component before its first load. *)
Definition blank : DashboardView.state :=
  {| DashboardView.data := VNull; DashboardView.error := None;
     DashboardView.credentialsError := false;
     DashboardView.loading := true; DashboardView.refreshing := false |}.


(** The token endpoint turns the credentials down. *)
Definition refusing : upstream :=
  token_endpoint {| status := 401; statusText := "Unauthorized";
                    text := "access_denied"; json := None |}
                 nowhere.

(** The devices of the first account come as an object, not a list. *)
Definition odd_devices : upstream :=
  routes
    [ (Organizations.account_url acme,
       json_response 200 (wrapped (VObj [("license", VStr "PREMIUM")])));
      (Organizations.account_url acme ++ "/agents/devices",
       json_response 200 (wrapped (VObj [("d-1", parked_device)]))) ].

(** An accounts list with a [null] entry between two accounts. *)
Definition holed : upstream :=
  token_endpoint token_answer
    (routes
       [ (accounts_url,
          json_response 200 (wrapped (VArr [acme_account; VNull; globex_account]))) ]).

(** No account at all. *)
Definition deserted : upstream :=
  token_endpoint token_answer
    (routes [ (accounts_url, json_response 200 (wrapped (VArr []))) ]).

End Samples.

(* ================================================================== *)
(** ** Properties *)

Import JS Http Obs.

(** *** Values and results *)

Lemma bind_ok {A B : Type} (r : result A) (k : A -> result B) (b : B) :
  bind r k = Ok b -> exists a, r = Ok a /\ k a = Ok b.
Proof.
  destruct r as [a | e]; simpl; intros H; [exists a; auto | discriminate].
Qed.

Ltac bind_inv H :=
  let a := fresh "x" in
  let Ha := fresh "Hx" in
  apply bind_ok in H; destruct H as (a & Ha & H).

Lemma get_opt_get (v x : value) (k : string) :
  get v k = Ok x -> get_opt v k = x.
Proof.
  destruct v; simpl; intros H; try discriminate; rewrite ?H; try congruence.
Qed.

Lemma count_if_cons (p : value -> result bool) (d : value) (rest : list value) (n : Z) :
  count_if p (d :: rest) = Ok n ->
  exists b m, p d = Ok b /\ count_if p rest = Ok m /\ n = (if b then 1 + m else m).
Proof.
  cbn [count_if]. intros H.
  bind_inv H. bind_inv H. inversion H. eauto.
Qed.

Lemma count_cons (p : value -> bool) (d : value) (rest : list value) :
  count p (d :: rest) = (if p d then 1 else 0) + count p rest.
Proof.
  unfold count. cbn [filter]. destruct (p d); cbn [List.length]; lia.
Qed.

(** The monadic count of a filter agrees with the plain count of the
    condition it tests, whenever no element makes the predicate throw. *)
Lemma count_if_count (p : value -> result bool) (q : value -> bool) (l : list value) :
  (forall d b, p d = Ok b -> b = q d) ->
  forall n, count_if p l = Ok n -> n = count q l.
Proof.
  intros Hpq. induction l as [| d rest IH]; intros n H.
  - inversion H; reflexivity.
  - apply count_if_cons in H. destruct H as (b & m & Hb & Hm & ->).
    rewrite count_cons, <- (IH m Hm), <- (Hpq d b Hb).
    destruct b; lia.
Qed.

Lemma flag_has (name : string) (d : value) (b : bool) :
  Organizations.flag name d = Ok b -> b = has name d.
Proof.
  unfold Organizations.flag, has. intros H. bind_inv H.
  inversion H. now rewrite (get_opt_get _ _ _ Hx).
Qed.

Lemma is_online_online (d : value) (b : bool) :
  Organizations.is_online d = Ok b -> b = online d.
Proof.
  unfold Organizations.is_online, online, has. intros H. bind_inv H.
  rewrite (get_opt_get _ _ _ Hx).
  destruct (truthy x); cbn [negb andb] in *.
  - now inversion H.
  - bind_inv H. inversion H. now rewrite (get_opt_get _ _ _ Hx0).
Qed.

Lemma filter_length_ok (v : value) (p : value -> result bool) (x : value) :
  filter_length v p = Ok x ->
  exists l n, v = VArr l /\ count_if p l = Ok n /\ x = VNum n.
Proof.
  destruct v; simpl; try discriminate.
  intros H. bind_inv H. inversion H. eauto.
Qed.


Lemma online_sleeping_disjoint (l : list value) :
  count online l + count (has "is_sleeping") l <= Z.of_nat (List.length l).
Proof.
  induction l as [| d rest IH]; [unfold count; simpl; lia |].
  rewrite !count_cons. cbn [List.length]. unfold online at 1.
  destruct (has "is_sleeping" d), (has "alive" d); cbn [negb andb]; lia.
Qed.

(** *** The aggregation of one account *)

Lemma summarize_ok (ad dv dm ks km fs fm s : value) :
  Organizations.summarize ad dv dm ks km fs fm = Ok s ->
  exists devices findings keyCount critical open,
    dv = VArr devices /\ fs = VArr findings /\
    get ks "length" = Ok keyCount /\
    count_if Organizations.is_critical findings = Ok critical /\
    count_if Organizations.is_open findings = Ok open /\
    s = VObj [ ("accountDetails", ad);
               ("agentDevices", dv);
               ("agentKeys", ks);
               ("findings", fs);
               ("agentDeviceCount", VNum (Z.of_nat (List.length devices)));
               ("agentKeyCount", keyCount);
               ("findingsCount", VNum (Z.of_nat (List.length findings)));
               ("criticalFindingsCount", VNum critical);
               ("openFindingsCount", VNum open);
               ("onlineDevices", VNum (count online devices));
               ("sleepingDevices", VNum (count (has "is_sleeping") devices));
               ("isolatedDevices", VNum (count (has "is_isolated") devices));
               ("excludedDevices", VNum (count (has "is_excluded") devices));
               ("agent_count_available", or (get_opt ad "agent_count_available") (VNum 0));
               ("agent_count_used", or (get_opt ad "agent_count_used") (VNum 0));
               ("license", or (get_opt ad "license") (VStr "Unknown"));
               ("user_count", or (get_opt ad "user_count") (VNum 0));
               ("agentDevicesMeta", dm);
               ("agentKeysMeta", km);
               ("findingsMeta", fm) ].
Proof.
  unfold Organizations.summarize. intros H.
  bind_inv H. apply filter_length_ok in Hx. destruct Hx as (devices & n1 & -> & Hn1 & ->).
  bind_inv H. apply filter_length_ok in Hx. destruct Hx as (l2 & n2 & E2 & Hn2 & ->).
  bind_inv H. apply filter_length_ok in Hx. destruct Hx as (l3 & n3 & E3 & Hn3 & ->).
  bind_inv H. apply filter_length_ok in Hx. destruct Hx as (l4 & n4 & E4 & Hn4 & ->).
  inversion E2; inversion E3; inversion E4; subst l2 l3 l4.
  bind_inv H. bind_inv H. bind_inv H.
  bind_inv H. apply filter_length_ok in Hx2. destruct Hx2 as (findings & c & -> & Hc & ->).
  bind_inv H. apply filter_length_ok in Hx2. destruct Hx2 as (l6 & o & E6 & Ho & ->).
  inversion E6; subst l6.
  apply (count_if_count _ _ _ is_online_online) in Hn1.
  apply (count_if_count _ _ _ (flag_has "is_sleeping")) in Hn2.
  apply (count_if_count _ _ _ (flag_has "is_isolated")) in Hn3.
  apply (count_if_count _ _ _ (flag_has "is_excluded")) in Hn4.
  subst n1 n2 n3 n4.
  cbn in Hx, Hx1. inversion Hx; inversion Hx1; subst x x1.
  inversion H. exists devices, findings, x0, c, o. repeat split; auto.
Qed.

(** [fetchAccountDetails] always settles to a summary: the one computed
    from the four unwrapped responses, or the empty one. *)
Lemma run_fetchAccountDetails (w : upstream) (token accountId : value) :
  run w (Organizations.fetchAccountDetails token accountId) =
  Ok (try_catch
        (Organizations.summarize
           (Organizations.unwrap_details
              (w (Get (Organizations.account_url accountId) (Organizations.bearer token))))
           (fst (Organizations.unwrap_list
              (w (Get (Organizations.account_url accountId ++ "/agents/devices")
                      (Organizations.bearer token)))))
           (snd (Organizations.unwrap_list
              (w (Get (Organizations.account_url accountId ++ "/agents/devices")
                      (Organizations.bearer token)))))
           (fst (Organizations.unwrap_list
              (w (Get (Organizations.account_url accountId ++ "/agents/keys")
                      (Organizations.bearer token)))))
           (snd (Organizations.unwrap_list
              (w (Get (Organizations.account_url accountId ++ "/agents/keys")
                      (Organizations.bearer token)))))
           (fst (Organizations.unwrap_list
              (w (Get (Organizations.account_url accountId ++ "/findings")
                      (Organizations.bearer token)))))
           (snd (Organizations.unwrap_list
              (w (Get (Organizations.account_url accountId ++ "/findings")
                      (Organizations.bearer token))))))
        (fun _ => Organizations.empty_summary)).
Proof.
  unfold Organizations.fetchAccountDetails.
  do 3 (cbn [run]; destruct (Organizations.unwrap_list _)).
  reflexivity.
Qed.

(** C1 (as amended).  The four device-status counts of a summary are
    independent counts over the devices the summary carries: each of
    [excludedDevices], [isolatedDevices], [sleepingDevices] counts the
    devices whose own flag is truthy, whatever their other flags, and
    [onlineDevices] counts the devices that are not sleeping and have a
    truthy [alive]; only the online and sleeping buckets are disjoint. *)
Theorem device_counts_are_per_flag (w : upstream) (token accountId : value) :
  exists summary,
    run w (Organizations.fetchAccountDetails token accountId) = Ok summary /\
    let devices := items (get_opt summary "agentDevices") in
    get_opt summary "agentDeviceCount" = VNum (Z.of_nat (List.length devices)) /\
    get_opt summary "excludedDevices" = VNum (count (has "is_excluded") devices) /\
    get_opt summary "isolatedDevices" = VNum (count (has "is_isolated") devices) /\
    get_opt summary "sleepingDevices" = VNum (count (has "is_sleeping") devices) /\
    get_opt summary "onlineDevices" = VNum (count online devices) /\
    count online devices + count (has "is_sleeping") devices
      <= Z.of_nat (List.length devices).
Proof.
  rewrite run_fetchAccountDetails.
  match goal with |- context [try_catch ?b _] => destruct b as [s | e] eqn:Hs end;
    cbn [try_catch]; eexists; split; try reflexivity.
  - apply summarize_ok in Hs.
    destruct Hs as (devices & findings & kc & c & o & -> & _ & _ & _ & _ & ->).
    cbn -[count]. repeat split; try reflexivity. apply online_sleeping_disjoint.
  - cbn -[Z.le]. repeat split; reflexivity.
Qed.

(** C1, counterexample.  One device that is excluded, isolated and
    sleeping is counted in three buckets, so the buckets of a single
    device add up to three. *)
Lemma excluded_device_is_counted_in_other_buckets :
  match run Samples.parked_upstream
            (Organizations.fetchAccountDetails Samples.token Samples.acme) with
  | Ok summary =>
      items (get_opt summary "agentDevices") = [Samples.parked_device] /\
      has "is_excluded" Samples.parked_device = true /\
      get_opt summary "excludedDevices" = VNum 1 /\
      get_opt summary "isolatedDevices" = VNum 1 /\
      get_opt summary "sleepingDevices" = VNum 1 /\
      ~ at_most_one_bucket summary
  | Throw _ => False
  end.
Proof.
  vm_compute. repeat split; try reflexivity. intros H; apply H; reflexivity.
Qed.

(** *** Envelope unwrapping *)

(** C2 (as amended).  On a 2xx answer whose body parses to a non-null
    value, the envelope counts as present when [status] is "OK" and
    [data] is truthy.  Then all three kinds of fetch take [data] as the
    payload.  Otherwise only the account-details fetch falls back to the
    whole body; the devices, keys and findings fetches keep their empty
    list, and the accounts-list fetch throws. *)
Theorem envelope_unwrapping (r : response) (body st data meta : value) :
  ok r = true -> json r = Some body ->
  get body "status" = Ok st -> get body "data" = Ok data ->
  get body "meta" = Ok meta ->
  let enveloped := is_str st "OK" && truthy data in
  Organizations.unwrap_details (Responded r) = (if enveloped then data else body) /\
  Organizations.unwrap_list (Responded r) =
    (if enveloped then (data, meta) else (VArr [], VNull)) /\
  Organizations.unwrap_accounts (Responded r) =
    (if enveloped then Ok (data, meta)
     else Throw (Error "Invalid response format from MSP accounts endpoint")).
Proof.
  intros Hok Hjson Hst Hdata Hmeta enveloped. subst enveloped.
  unfold Organizations.unwrap_details, Organizations.unwrap_list,
    Organizations.unwrap_accounts, parse_json.
  rewrite Hok, Hjson. cbn [negb bind try_catch]. rewrite Hst, Hdata.
  cbn [bind]. destruct (is_str st "OK"); cbn [negb orb andb bind try_catch].
  - destruct (truthy data); cbn [negb bind try_catch]; rewrite ?Hmeta; auto.
  - auto.
Qed.

Lemma envelope_unwrapping_witness :
  Organizations.unwrap_details (Responded Samples.wrapped_devices)
    = VArr [Samples.parked_device] /\
  Organizations.unwrap_list (Responded Samples.wrapped_devices)
    = (VArr [Samples.parked_device], VObj []) /\
  Organizations.unwrap_accounts (Responded Samples.wrapped_devices)
    = Ok (VArr [Samples.parked_device], VObj []).
Proof.
  exact (envelope_unwrapping Samples.wrapped_devices
           (Samples.wrapped (VArr [Samples.parked_device]))
           (VStr "OK") (VArr [Samples.parked_device]) (VObj [])
           eq_refl eq_refl eq_refl eq_refl eq_refl).
Defined.

(** The fallback does hold for the account-details fetch. *)
Lemma details_fall_back_to_body :
  falls_back_to_body Organizations.unwrap_details.
Proof.
  intros r body st Hok Hjson Hst Hno.
  unfold Organizations.unwrap_details, parse_json.
  rewrite Hok, Hjson. cbn [bind]. rewrite Hst. cbn [bind]. now rewrite Hno.
Qed.

(** C2, counterexample.  A 200 answer carrying the bare device array is
    not taken as the payload by the devices fetch, which keeps its empty
    list, and makes the accounts-list fetch throw. *)
Lemma list_fetch_does_not_fall_back :
  ~ falls_back_to_body (fun fetched => fst (Organizations.unwrap_list fetched)) /\
  Organizations.unwrap_list (Responded Samples.bare_devices) = (VArr [], VNull) /\
  Organizations.unwrap_accounts (Responded Samples.bare_devices)
    = Throw (Error "Invalid response format from MSP accounts endpoint").
Proof.
  split; [| split; reflexivity].
  intros H.
  specialize (H Samples.bare_devices (VArr [Samples.parked_device]) VUndef
                eq_refl eq_refl eq_refl eq_refl).
  discriminate H.
Qed.

(** *** Token acquisition *)

(** The dashboard route never hands out a missing token: what it returns
    is truthy. *)
Lemma dashboard_token_is_truthy (w : upstream) (env : process_env) (token : value) :
  run w (Dashboard.getAccessToken env) = Ok token -> truthy token = true.
Proof.
  unfold Dashboard.getAccessToken.
  destruct (negb _ || negb _); cbn [run]; [discriminate |].
  destruct (w _) as [e | r]; [discriminate |].
  destruct (negb (ok r)); [discriminate |].
  destruct (parse_json r) as [data | e]; [| discriminate].
  cbn [run]. intros H. bind_inv H.
  destruct (truthy x) eqn:Hx'; cbn [negb] in H; [| discriminate].
  now inversion H; subst.
Qed.

(** The organizations route returns whatever [data.access_token] reads,
    on every 2xx answer with a non-null JSON body. *)
Lemma organizations_token_is_unchecked
      (w : upstream) (env : process_env) (id secret : string) (r : response)
      (data : value) :
  BLUMIRA_CLIENT_ID env = Some id -> id <> EmptyString ->
  BLUMIRA_CLIENT_SECRET env = Some secret -> secret <> EmptyString ->
  w (Post Organizations.AUTH_URL
          (VObj [ ("grant_type", VStr "client_credentials");
                  ("client_id", VStr id); ("client_secret", VStr secret);
                  ("audience", VStr "public-api") ])) = Responded r ->
  ok r = true -> json r = Some data ->
  run w (Organizations.getAccessToken env) = get data "access_token".
Proof.
  intros Hid Hid' Hsec Hsec' Hw Hok Hjson.
  unfold Organizations.getAccessToken. rewrite Hid, Hsec. cbn [env_value truthy].
  apply String.eqb_neq in Hid', Hsec'. rewrite Hid', Hsec'. cbn [negb orb run].
  rewrite Hw, Hok. cbn [negb run]. unfold parse_json. now rewrite Hjson.
Qed.

(** C3, at the failing input.  When the token endpoint answers 200
    with a body that has no [access_token], the token acquisition of the
    organizations route returns [undefined] to its caller, where that of
    the dashboard route throws; the organizations handler then asks for
    the accounts list as "Bearer undefined". *)
Theorem organizations_token_may_be_undefined :
  run (Samples.token_endpoint Samples.tokenless Samples.nowhere)
      (Organizations.getAccessToken Samples.configured) = Ok VUndef /\
  run (Samples.token_endpoint Samples.tokenless Samples.nowhere)
      (Dashboard.getAccessToken Samples.configured)
    = Throw (Error "No access token received from authentication endpoint") /\
  exists c,
    steps (Samples.token_endpoint Samples.tokenless Samples.nowhere)
          (Organizations.GET_try Samples.configured "2024-05-01T00:00:00.000Z") c /\
    in_flight c = [Get Samples.accounts_url "Bearer undefined"].
Proof.
  split; [reflexivity |]. split; [reflexivity |].
  eexists. split.
  - eapply steps_step; [| apply steps_refl].
    unfold Organizations.GET_try, Organizations.getAccessToken. cbn.
    apply step_response.
  - reflexivity.
Qed.

(** *** Objects *)

Lemma lookup_set (k k' : string) (v : value) (props : list (string * value)) :
  lookup k (set k' v props) = if String.eqb k k' then v else lookup k props.
Proof.
  induction props as [| [k0 v0] rest IH]; cbn [set lookup].
  - reflexivity.
  - destruct (String.eqb k' k0) eqn:E0; cbn [lookup].
    + apply String.eqb_eq in E0; subst k0.
      destruct (String.eqb k k'); reflexivity.
    + rewrite IH. destruct (String.eqb k k0) eqn:E1; [| reflexivity].
      apply String.eqb_eq in E1; subst k0.
      destruct (String.eqb k k') eqn:E2; [| reflexivity].
      rewrite String.eqb_sym in E2. congruence.
Qed.

Lemma assign_cons (base : list (string * value)) (k : string) (v : value)
      (more : list (string * value)) :
  assign base ((k, v) :: more) = assign (set k v base) more.
Proof. reflexivity. Qed.

(** A key that the later properties do not mention keeps its value. *)
Lemma lookup_assign_other (k : string) (more base : list (string * value)) :
  ~ In k (map fst more) -> lookup k (assign base more) = lookup k base.
Proof.
  revert base; induction more as [| [k' v] rest IH]; intros base Hk.
  - reflexivity.
  - rewrite assign_cons, IH, lookup_set.
    + destruct (String.eqb k k') eqn:E; [| reflexivity].
      apply String.eqb_eq in E. subst k'. exfalso; apply Hk; now left.
    + intros Hin; apply Hk; now right.
Qed.

(** A key that the later properties mention no longer depends on the
    object they are spread over. *)
Lemma lookup_assign_agree (k : string) (more base1 base2 : list (string * value)) :
  lookup k base1 = lookup k base2 \/ In k (map fst more) ->
  lookup k (assign base1 more) = lookup k (assign base2 more).
Proof.
  revert base1 base2; induction more as [| [k' v] rest IH]; intros base1 base2 H.
  - destruct H as [H | []]. exact H.
  - rewrite !assign_cons. apply IH. rewrite !lookup_set.
    destruct (String.eqb k k') eqn:E; [now left |].
    destruct H as [H | [H | H]]; [now left | | now right].
    cbn in H. subst k'. rewrite String.eqb_refl in E. discriminate.
Qed.

Lemma lookup_assign_override (k : string) (more base : list (string * value)) :
  In k (map fst more) -> lookup k (assign base more) = lookup k (assign [] more).
Proof.
  intros H. apply lookup_assign_agree. now right.
Qed.

(** *** Programs *)

Lemma run_andThen {A : Type} (w : upstream) (p : prog A) (f : result A -> prog A) :
  run w (andThen p f) = run w (f (run w p)).
Proof.
  induction p as [a | rq k IH | tasks k IH]; cbn [andThen run]; auto.
Qed.

(** *** The organization record *)

Lemma lookup_assign_nodup (k : string) (more base : list (string * value)) :
  NoDup (map fst more) -> In k (map fst more) ->
  lookup k (assign base more) = lookup k more.
Proof.
  revert base; induction more as [| [k' v] rest IH]; intros base Hnd Hin.
  - destruct Hin.
  - rewrite assign_cons. cbn [map fst] in Hnd, Hin. inversion Hnd; subst.
    cbn [lookup]. destruct (String.eqb k k') eqn:E.
    + apply String.eqb_eq in E; subst k'.
      rewrite lookup_assign_other by assumption.
      rewrite lookup_set, String.eqb_refl. reflexivity.
    + destruct Hin as [Hin | Hin].
      * subst k'. rewrite String.eqb_refl in E. discriminate.
      * now apply IH.
Qed.

Lemma is_open_open (f : value) (b : bool) :
  Organizations.is_open f = Ok b -> b = open_finding f.
Proof.
  unfold Organizations.is_open, open_finding. intros H. bind_inv H.
  inversion H. now rewrite (get_opt_get _ _ _ Hx).
Qed.

Lemma is_critical_critical (f : value) (b : bool) :
  Organizations.is_critical f = Ok b -> b = critical_finding f.
Proof.
  unfold Organizations.is_critical, critical_finding. intros H. bind_inv H.
  inversion H. now rewrite (get_opt_get _ _ _ Hx).
Qed.

Lemma summary_keys_nodup : NoDup summary_keys.
Proof.
  unfold summary_keys.
  repeat (constructor; [cbn; intuition discriminate |]). constructor.
Qed.

(** What [fetchAccountDetails] settles to: an object with the twenty
    properties of the literal, whose counts are counts over the lists it
    carries. *)
Lemma details_shape (w : upstream) (token accountId : value) :
  exists dprops,
    run w (Organizations.fetchAccountDetails token accountId) = Ok (VObj dprops) /\
    map fst dprops = summary_keys /\
    (lookup "findings" dprops
       = fst (Organizations.unwrap_list (w (findings_request token accountId)))
     \/ lookup "findings" dprops = VArr []).
Proof.
  rewrite run_fetchAccountDetails.
  match goal with |- context [try_catch ?b _] => destruct b as [s | e] eqn:Hs end;
    cbn [try_catch].
  - apply summarize_ok in Hs.
    destruct Hs as (devices & findings & kc & c & o & _ & Hf & _ & _ & _ & ->).
    eexists; split; [reflexivity |]. split; [reflexivity |]. left. reflexivity.
  - eexists; split; [reflexivity |]. split; [reflexivity |]. right. reflexivity.
Qed.

Lemma details_counts (w : upstream) (token accountId : value) (dprops : list (string * value)) :
  run w (Organizations.fetchAccountDetails token accountId) = Ok (VObj dprops) ->
  lookup "findingsCount" dprops
    = VNum (Z.of_nat (List.length (items (lookup "findings" dprops)))) /\
  lookup "openFindingsCount" dprops
    = VNum (count open_finding (items (lookup "findings" dprops))) /\
  lookup "criticalFindingsCount" dprops
    = VNum (count critical_finding (items (lookup "findings" dprops))).
Proof.
  rewrite run_fetchAccountDetails.
  match goal with |- context [try_catch ?b _] => destruct b as [s | e] eqn:Hs end;
    cbn [try_catch]; intros H.
  - apply summarize_ok in Hs.
    destruct Hs as (devices & findings & kc & c & o & _ & Hf & _ & Hc & Ho & ->).
    rewrite Hf in H. injection H as <-.
    apply (count_if_count _ _ _ is_open_open) in Ho.
    apply (count_if_count _ _ _ is_critical_critical) in Hc.
    subst. cbn -[count]. auto.
  - unfold Organizations.empty_summary in H. injection H as <-. cbn. auto.
Qed.

Lemma get_total (v x : value) (k k' : string) :
  get v k = Ok x -> exists y, get v k' = Ok y.
Proof.
  destruct v; cbn; try discriminate; intros _; eauto.
  all: destruct (String.eqb k' "length"); eauto.
Qed.

(** What the mapped callback settles to for an account whose
    [account_id] can be read. *)
Lemma run_org_task (w : upstream) (token account accountId : value)
      (dprops : list (string * value)) :
  get account "account_id" = Ok accountId ->
  run w (Organizations.fetchAccountDetails token accountId) = Ok (VObj dprops) ->
  run w (Organizations.org_task token account) =
  Ok (VObj (assign (assign (own_props account) dprops)
              [ ("id", accountId);
                ("name", get_opt account "name");
                ("open_findings",
                 or (get_opt account "open_findings")
                    (lookup "openFindingsCount" dprops)) ])).
Proof.
  intros Hid Hrun. unfold Organizations.org_task. rewrite Hid, run_andThen, Hrun.
  cbn [run bind]. unfold Organizations.merge. rewrite Hid. cbn [bind].
  destruct (get_total _ _ _ "name" Hid) as (n & Hn).
  destruct (get_total _ _ _ "open_findings" Hid) as (f & Hf).
  rewrite Hn, Hf, (get_opt_get _ _ _ Hn), (get_opt_get _ _ _ Hf).
  reflexivity.
Qed.

(** A property of the summary is a property of the organization. *)
Lemma org_keeps_summary (k : string) (base dprops extra : list (string * value)) :
  NoDup (map fst dprops) -> In k (map fst dprops) -> ~ In k (map fst extra) ->
  lookup k (assign (assign base dprops) extra) = lookup k dprops.
Proof.
  intros Hnd Hin Hout.
  now rewrite lookup_assign_other, lookup_assign_nodup.
Qed.

(** C10.  The [open_findings] of an organization is the value the
    accounts list gave when that value is truthy, and otherwise the
    number of findings of the per-account fetch whose [status_name] is
    "Open"; an upstream 0 is thus replaced by the local count. *)
Theorem open_findings_prefers_truthy_upstream
        (w : upstream) (token account accountId : value) :
  get account "account_id" = Ok accountId ->
  exists details org,
    run w (Organizations.fetchAccountDetails token accountId) = Ok details /\
    run w (Organizations.org_task token account) = Ok org /\
    get_opt details "openFindingsCount"
      = VNum (count open_finding (items (get_opt details "findings"))) /\
    get_opt org "open_findings"
      = (if truthy (get_opt account "open_findings")
         then get_opt account "open_findings"
         else get_opt details "openFindingsCount") /\
    (get_opt account "open_findings" = VNum 0 ->
     get_opt org "open_findings" = get_opt details "openFindingsCount").
Proof.
  intros Hid.
  destruct (details_shape w token accountId) as (dprops & Hrun & Hkeys & _).
  destruct (details_counts _ _ _ _ Hrun) as (_ & Hopen & _).
  exists (VObj dprops). eexists.
  split; [exact Hrun |]. split; [exact (run_org_task _ _ _ _ _ Hid Hrun) |].
  split; [exact Hopen |].
  assert (Hfield :
            get_opt
              (VObj (assign (assign (own_props account) dprops)
                       [ ("id", accountId); ("name", get_opt account "name");
                         ("open_findings",
                          or (get_opt account "open_findings")
                             (lookup "openFindingsCount" dprops)) ]))
              "open_findings"
            = or (get_opt account "open_findings") (lookup "openFindingsCount" dprops)).
  { cbn [get_opt get]. rewrite !assign_cons. cbn [assign fold_left].
    rewrite lookup_set. reflexivity. }
  split.
  - rewrite Hfield. reflexivity.
  - intros Hzero. rewrite Hfield, Hzero. reflexivity.
Qed.

Lemma open_findings_prefers_truthy_upstream_witness :
  exists details org,
    run Samples.recount (Organizations.fetchAccountDetails Samples.token Samples.acme)
      = Ok details /\
    run Samples.recount (Organizations.org_task Samples.token Samples.acme_account)
      = Ok org /\
    get_opt Samples.acme_account "open_findings" = VNum 0 /\
    get_opt details "openFindingsCount" = VNum 1 /\
    get_opt org "open_findings" = VNum 1.
Proof.
  destruct (open_findings_prefers_truthy_upstream
              Samples.recount Samples.token Samples.acme_account Samples.acme eq_refl)
    as (details & org & Hd & Ho & Hcount & Hopen & Hzero).
  exists details, org.
  split; [exact Hd |]. split; [exact Ho |]. split; [reflexivity |].
  assert (E : details = match run Samples.recount
                               (Organizations.fetchAccountDetails Samples.token Samples.acme)
                        with Ok d => d | Throw _ => VUndef end)
    by (rewrite Hd; reflexivity).
  vm_compute in E. subst details.
  split; [reflexivity |]. rewrite (Hzero eq_refl). reflexivity.
Defined.

(** *** The handler of the organizations route *)

Lemma run_GET_try (w : upstream) (env : process_env) (timestamp : string) (token : value) :
  run w (Organizations.getAccessToken env) = Ok token ->
  run w (Organizations.GET_try env timestamp) =
  match Organizations.unwrap_accounts (w (accounts_request token)) with
  | Throw e => Throw e
  | Ok (accounts, accountsMeta) =>
      run w (Organizations.fan_out token accounts accountsMeta timestamp)
  end.
Proof.
  intros Htok. unfold Organizations.GET_try. rewrite run_andThen, Htok. cbn [run].
  fold (accounts_request token).
  destruct (Organizations.unwrap_accounts _) as [[accounts meta] | e]; reflexivity.
Qed.

Lemma contains_suffix (before sub : string) : contains sub (before ++ sub).
Proof.
  exists before, EmptyString.
  replace (sub ++ "") with sub; [reflexivity |].
  induction sub as [| c rest IH]; cbn; [reflexivity | now rewrite <- IH].
Qed.

(** C5.  When the accounts-list fetch is answered outside 2xx, the reply
    is a 500 whose body is the error message, ending in the upstream
    status code, and the timestamp; it has no [organizations]. *)
Theorem accounts_failure_is_a_500
        (w : upstream) (env : process_env) (timestamp : string) (token : value)
        (r : response) :
  run w (Organizations.getAccessToken env) = Ok token ->
  w (accounts_request token) = Responded r ->
  ok r = false ->
  Organizations.GET w env timestamp =
    {| code := 500;
       body := VObj [ ("error", VStr ("Failed to fetch MSP accounts: " ++ show_Z (status r)));
                      ("timestamp", VStr timestamp) ] |} /\
  contains (show_Z (status r)) ("Failed to fetch MSP accounts: " ++ show_Z (status r)) /\
  get_opt (body (Organizations.GET w env timestamp)) "organizations" = VUndef.
Proof.
  intros Htok Hw Hok.
  assert (E : Organizations.GET w env timestamp =
              {| code := 500;
                 body := VObj [ ("error", VStr ("Failed to fetch MSP accounts: "
                                                ++ show_Z (status r)));
                                ("timestamp", VStr timestamp) ] |}).
  { unfold Organizations.GET. rewrite (run_GET_try _ _ _ _ Htok), Hw.
    unfold Organizations.unwrap_accounts. rewrite Hok. reflexivity. }
  split; [exact E |]. split; [apply contains_suffix |].
  rewrite E. reflexivity.
Qed.

Lemma unwrap_list_failed (fetched : outcome) :
  fetch_failed fetched -> Organizations.unwrap_list fetched = (VArr [], VNull).
Proof.
  destruct fetched as [e | r]; cbn [fetch_failed Organizations.unwrap_list]; auto.
  intros [H | [e H]].
  - now rewrite H.
  - destruct (ok r); [| reflexivity].
    destruct (parse_json r) as [data | e']; cbn [bind try_catch] in *; [| reflexivity].
    now rewrite H.
Qed.

Lemma promise_all_ok {A : Type} (rs : list (result A)) (vs : list A) :
  Forall2 (fun r v => r = Ok v) rs vs -> promise_all rs = Ok vs.
Proof.
  induction 1 as [| r v rs vs Hr _ IH]; cbn [promise_all]; [reflexivity |].
  subst r. rewrite IH. reflexivity.
Qed.

Lemma object_readable (v : value) : is_object v -> readable v.
Proof. intros [props ->] k. cbn. eauto. Qed.

Lemma sum_field_ok (field : string) (orgs : list value) :
  Forall readable orgs -> exists total, Organizations.sum_field field orgs = Ok total.
Proof.
  intros Hobj. unfold Organizations.sum_field. generalize (VNum 0).
  induction Hobj as [| org rest Hr _ IH]; intros start; cbn [fold_left].
  - eauto.
  - destruct (Hr field) as [x ->]. cbn [bind]. apply IH.
Qed.

Lemma sums_ok (fields : list (string * string)) (orgs : list value) :
  Forall readable orgs -> exists counts, Organizations.sums fields orgs = Ok counts.
Proof.
  intros Hobj. induction fields as [| [total field] rest [counts IH]];
    cbn [Organizations.sums]; [eauto |].
  destruct (sum_field_ok field orgs Hobj) as [s Hs].
  rewrite Hs, IH. cbn [bind]. eauto.
Qed.

Lemma licenseBreakdown_ok (orgs : list value) :
  Forall readable orgs ->
  exists breakdown, Organizations.licenseBreakdown orgs = Ok breakdown.
Proof.
  intros Hobj. unfold Organizations.licenseBreakdown.
  generalize (@nil (string * value)).
  induction Hobj as [| org rest Hr _ IH]; intros start; cbn [fold_left].
  - eauto.
  - destruct (Hr "license") as [x ->]. cbn [bind]. apply IH.
Qed.

Lemma totals_ok (orgs : list value) :
  Forall readable orgs ->
  exists counts breakdown,
    Organizations.sums Organizations.summed_fields orgs = Ok counts /\
    Organizations.licenseBreakdown orgs = Ok breakdown /\
    Organizations.totals orgs
      = Ok (counts ++ [("licenseBreakdown", VObj breakdown)])%list.
Proof.
  intros Hobj. unfold Organizations.totals.
  destruct (sums_ok Organizations.summed_fields orgs Hobj) as [counts ->].
  destruct (licenseBreakdown_ok orgs Hobj) as [b ->].
  cbn [bind]. eauto.
Qed.

(** Every account whose [account_id] can be read gets an organization
    record. *)
Lemma org_task_settles (w : upstream) (token account : value) :
  (exists accountId, get account "account_id" = Ok accountId) ->
  exists props, run w (Organizations.org_task token account) = Ok (VObj props).
Proof.
  intros [accountId Hid].
  destruct (details_shape w token accountId) as (dprops & Hrun & _).
  rewrite (run_org_task _ _ _ _ _ Hid Hrun). eauto.
Qed.

Lemma org_tasks_settle (w : upstream) (token : value) (accounts : list value) :
  Forall (fun a => exists accountId, get a "account_id" = Ok accountId) accounts ->
  exists orgs,
    Forall2 (fun r v => r = Ok v)
            (map (run w) (map (Organizations.org_task token) accounts)) orgs /\
    Forall2 (fun a o => run w (Organizations.org_task token a) = Ok o) accounts orgs /\
    Forall is_object orgs.
Proof.
  induction 1 as [| a rest Ha _ (orgs & H1 & H2 & H3)].
  - exists []. repeat constructor.
  - destruct (org_task_settles w token a Ha) as [props Hp].
    exists (VObj props :: orgs). cbn [map]. repeat split.
    + constructor; assumption.
    + constructor; assumption.
    + constructor; [eexists; reflexivity | assumption].
Qed.

(** When the token and the accounts list are there and every account
    can be read, the reply is a 200 carrying one record per account, in
    the order of the accounts list, and the totals of those records. *)
Lemma GET_body (w : upstream) (env : process_env) (timestamp : string)
      (token accountsMeta : value) (accounts : list value) :
  run w (Organizations.getAccessToken env) = Ok token ->
  Organizations.unwrap_accounts (w (accounts_request token))
    = Ok (VArr accounts, accountsMeta) ->
  Forall (fun a => exists accountId, get a "account_id" = Ok accountId) accounts ->
  exists orgs t,
    Forall2 (fun a o => run w (Organizations.org_task token a) = Ok o) accounts orgs /\
    Organizations.totals orgs = Ok t /\
    Organizations.GET w env timestamp =
      {| code := 200;
         body := VObj [ ("organizations", VArr orgs);
                        ("meta", accountsMeta);
                        ("totals", VObj t);
                        ("debug",
                         VObj (assign
                                 (assign
                                    [("organizationCount",
                                      VNum (Z.of_nat (List.length orgs)))] t)
                                 [("timestamp", VStr timestamp)])) ] |}.
Proof.
  intros Htok Hacc Hread.
  destruct (org_tasks_settle w token accounts Hread) as (orgs & H1 & H2 & H3).
  assert (H4 : Forall readable orgs)
    by (eapply Forall_impl; [apply object_readable | exact H3]).
  destruct (totals_ok orgs H4) as (counts & breakdown & _ & _ & Ht).
  exists orgs. eexists. split; [exact H2 |]. split; [exact Ht |].
  unfold Organizations.GET. rewrite (run_GET_try _ _ _ _ Htok), Hacc.
  cbn [Organizations.fan_out run]. rewrite (promise_all_ok _ _ H1).
  unfold Organizations.finish. cbn [bind]. rewrite Ht. reflexivity.
Qed.








Lemma accounts_failure_is_a_500_witness :
  Organizations.GET Samples.accounts_down Samples.configured "2024-05-01T00:00:00.000Z" =
    {| code := 500;
       body := VObj [ ("error", VStr "Failed to fetch MSP accounts: 503");
                      ("timestamp", VStr "2024-05-01T00:00:00.000Z") ] |} /\
  contains "503" "Failed to fetch MSP accounts: 503".
Proof.
  destruct (accounts_failure_is_a_500
              Samples.accounts_down Samples.configured "2024-05-01T00:00:00.000Z"
              Samples.token (Samples.json_response 503 (VObj []))
              eq_refl eq_refl eq_refl) as (Hreply & Hcontains & _).
  split; [exact Hreply | exact Hcontains].
Defined.

(** *** The totals reducer *)

Lemma sum_field_numeric (field : string) (orgs : list value) :
  Forall (fun org => exists z, get org field = Ok (VNum z)) orgs ->
  Organizations.sum_field field orgs
    = Ok (VNum (sum (map (fun org => num (get_opt org field)) orgs))).
Proof.
  intros Hnum. unfold Organizations.sum_field.
  assert (G : forall start,
             fold_left (fun acc org =>
                          let* sum := acc in
                          let* x := get org field in
                          Ok (add sum x))
                       orgs (Ok (VNum start))
             = Ok (VNum (start + sum (map (fun org => num (get_opt org field)) orgs)))).
  { induction Hnum as [| org rest [z Hz] _ IH]; intros start; cbn [fold_left map sum fold_right].
    - f_equal. f_equal. lia.
    - rewrite Hz, (get_opt_get _ _ _ Hz). cbn [bind add stringish orb to_number num].
      rewrite IH. f_equal. f_equal. fold (sum (map (fun org => num (get_opt org field)) rest)).
      lia. }
  apply (G 0).
Qed.

Lemma sums_keys (fields : list (string * string)) (orgs : list value)
      (counts : list (string * value)) :
  Organizations.sums fields orgs = Ok counts -> map fst counts = map fst fields.
Proof.
  revert counts; induction fields as [| [total field] rest IH]; intros counts H;
    cbn [Organizations.sums] in H.
  - now inversion H.
  - bind_inv H. bind_inv H. inversion H. cbn [map fst]. f_equal. now apply IH.
Qed.

(** Each entry of the totals is the [reduce] of its own field. *)
Lemma lookup_sums (fields : list (string * string)) (orgs : list value)
      (counts : list (string * value)) (total field : string) :
  Organizations.sums fields orgs = Ok counts ->
  NoDup (map fst fields) -> In (total, field) fields ->
  Organizations.sum_field field orgs = Ok (lookup total counts).
Proof.
  revert counts; induction fields as [| [total' field'] rest IH]; intros counts H Hnd Hin.
  - destruct Hin.
  - cbn [Organizations.sums] in H. bind_inv H. bind_inv H. inversion H; subst counts.
    cbn [map fst] in Hnd. inversion Hnd; subst. cbn [lookup].
    destruct Hin as [E | Hin].
    + inversion E; subst. now rewrite String.eqb_refl.
    + destruct (String.eqb total total') eqn:E.
      * apply String.eqb_eq in E; subst total'.
        exfalso. apply H2. change total with (fst (total, field)). now apply in_map.
      * now apply IH.
Qed.

Lemma lookup_app (k : string) (l1 l2 : list (string * value)) :
  In k (map fst l1) -> lookup k (l1 ++ l2)%list = lookup k l1.
Proof.
  induction l1 as [| [k' v] rest IH]; cbn [map fst lookup app]; intros H; [destruct H |].
  destruct (String.eqb k k') eqn:E; [reflexivity |].
  destruct H as [H | H]; [| now apply IH].
  subst k'. rewrite String.eqb_refl in E. discriminate.
Qed.

Lemma summed_fields_nodup : NoDup (map fst Organizations.summed_fields).
Proof.
  cbn. repeat (constructor; [cbn; intuition discriminate |]). constructor.
Qed.

Lemma total_of_numeric_field (orgs : list value) (total field : string) :
  In (total, field) Organizations.summed_fields ->
  Forall (fun org => exists z, get org field = Ok (VNum z)) orgs ->
  exists t,
    Organizations.totals orgs = Ok t /\
    lookup total t = VNum (sum (map (fun org => num (get_opt org field)) orgs)).
Proof.
  intros Hin Hnum.
  assert (Hread : Forall readable orgs).
  { eapply Forall_impl; [| exact Hnum]. intros org [z Hz] k.
    exact (get_total _ _ _ k Hz). }
  destruct (totals_ok orgs Hread) as (counts & breakdown & Hc & _ & Ht).
  eexists. split; [exact Ht |].
  rewrite lookup_app.
  - pose proof (lookup_sums _ _ _ _ _ Hc summed_fields_nodup Hin) as E.
    rewrite (sum_field_numeric _ _ Hnum) in E. now inversion E.
  - rewrite (sums_keys _ _ _ Hc). change total with (fst (total, field)).
    now apply in_map.
Qed.



(** The counts the aggregation computes itself are always numbers. *)
Lemma computed_counts_are_numbers (w : upstream) (token accountId : value)
      (dprops : list (string * value)) (k : string) :
  run w (Organizations.fetchAccountDetails token accountId) = Ok (VObj dprops) ->
  In k [ "agentDeviceCount"; "findingsCount"; "criticalFindingsCount";
         "openFindingsCount"; "onlineDevices"; "sleepingDevices";
         "isolatedDevices"; "excludedDevices" ] ->
  is_number (lookup k dprops).
Proof.
  rewrite run_fetchAccountDetails.
  match goal with |- context [try_catch ?b _] => destruct b as [s | e] eqn:Hs end;
    cbn [try_catch]; intros H Hk.
  - apply summarize_ok in Hs.
    destruct Hs as (devices & findings & kc & c & o & _ & _ & _ & _ & _ & ->).
    injection H as <-.
    cbn [In] in Hk.
    repeat (destruct Hk as [<- | Hk]; [eexists; reflexivity |]). destruct Hk.
  - unfold Organizations.empty_summary in H. injection H as <-.
    cbn [In] in Hk.
    repeat (destruct Hk as [<- | Hk]; [eexists; reflexivity |]). destruct Hk.
Qed.

Lemma org_counts_are_numbers (w : upstream) (token account org : value) (field : string) :
  (exists accountId, get account "account_id" = Ok accountId) ->
  run w (Organizations.org_task token account) = Ok org ->
  In field [ "agentDeviceCount"; "findingsCount"; "criticalFindingsCount";
             "openFindingsCount"; "onlineDevices"; "sleepingDevices";
             "isolatedDevices"; "excludedDevices" ] ->
  exists z, get org field = Ok (VNum z).
Proof.
  intros [accountId Hid] Hrun Hfield.
  destruct (details_shape w token accountId) as (dprops & Hd & Hkeys & _).
  pose proof (run_org_task _ _ _ _ _ Hid Hd) as E. rewrite Hrun in E.
  match type of E with Ok _ = Ok ?v => assert (E' : org = v) by congruence end.
  rewrite E'. clear E E'.
  destruct (computed_counts_are_numbers w token accountId dprops field Hd Hfield)
    as [z Hz].
  exists z. cbn [get]. rewrite org_keeps_summary.
  - now rewrite Hz.
  - rewrite Hkeys. apply summary_keys_nodup.
  - rewrite Hkeys. cbn [In] in Hfield. unfold summary_keys. cbn [In].
    repeat (destruct Hfield as [<- | Hfield]; [tauto |]). destruct Hfield.
  - cbn [In] in Hfield.
    repeat (destruct Hfield as [<- | Hfield]; [cbn; intuition discriminate |]).
    destruct Hfield.
Qed.

(** In a 200 reply, the totals of the counts the aggregation computes
    itself are the sums over the organizations of the reply, with no
    condition on what the upstream sent. *)
Lemma reply_totals_are_sums (w : upstream) (env : process_env) (timestamp : string)
      (token accountsMeta : value) (accounts : list value) (total field : string) :
  run w (Organizations.getAccessToken env) = Ok token ->
  Organizations.unwrap_accounts (w (accounts_request token))
    = Ok (VArr accounts, accountsMeta) ->
  Forall (fun a => exists accountId, get a "account_id" = Ok accountId) accounts ->
  In (total, field)
     [ ("totalAgentDevices", "agentDeviceCount");
       ("totalFindings", "findingsCount");
       ("totalCriticalFindings", "criticalFindingsCount");
       ("totalOpenFindings", "openFindingsCount");
       ("totalOnlineDevices", "onlineDevices");
       ("totalSleepingDevices", "sleepingDevices");
       ("totalIsolatedDevices", "isolatedDevices");
       ("totalExcludedDevices", "excludedDevices") ] ->
  exists orgs t,
    get_opt (body (Organizations.GET w env timestamp)) "organizations" = VArr orgs /\
    get_opt (body (Organizations.GET w env timestamp)) "totals" = VObj t /\
    lookup total t = VNum (sum (map (fun org => num (get_opt org field)) orgs)).
Proof.
  intros Htok Hacc Hread Hpair.
  destruct (GET_body w env timestamp token accountsMeta accounts Htok Hacc Hread)
    as (orgs & t & Hall & Ht & ->).
  exists orgs, t. split; [reflexivity |]. split; [reflexivity |].
  assert (Hin : In (total, field) Organizations.summed_fields).
  { cbn [In] in Hpair. unfold Organizations.summed_fields. cbn [In].
    repeat (destruct Hpair as [<- | Hpair]; [tauto |]). destruct Hpair. }
  assert (Hfield : In field [ "agentDeviceCount"; "findingsCount";
                              "criticalFindingsCount"; "openFindingsCount";
                              "onlineDevices"; "sleepingDevices";
                              "isolatedDevices"; "excludedDevices" ]).
  { cbn [In] in Hpair. cbn [In].
    repeat (destruct Hpair as [E | Hpair]; [injection E as _ <-; tauto |]).
    destruct Hpair. }
  assert (Hnum : Forall (fun org => exists z, get org field = Ok (VNum z)) orgs).
  { clear Ht Hacc. induction Hall as [| a o accounts orgs Ho _ IH]; constructor.
    - inversion Hread; subst. eapply org_counts_are_numbers; eassumption.
    - inversion Hread; subst. now apply IH. }
  destruct (total_of_numeric_field orgs total field Hin Hnum) as (t' & Ht' & Hsum).
  rewrite Ht in Ht'. injection Ht' as <-. exact Hsum.
Qed.

(** *** The license histogram *)

Lemma tally_step (n : nat) : add (or (tally n) (VNum 0)) (VNum 1) = tally (S n).
Proof.
  destruct n as [| n]; [reflexivity |].
  unfold tally, or. cbn [truthy].
  replace (Z.of_nat (S n) =? 0) with false by (symmetry; apply Z.eqb_neq; lia).
  cbn [negb add stringish orb to_number]. f_equal. lia.
Qed.

Lemma count_license_ordinary (key : string) (counts : list (string * value)) :
  ordinary key ->
  Organizations.count_license key counts
  = set key (add (or (lookup key counts) (VNum 0)) (VNum 1)) counts.
Proof.
  intros Hkey. unfold Organizations.count_license. rewrite Hkey.
  now destruct (has_own key counts).
Qed.

Lemma licenseBreakdown_tallies (orgs : list value) (licenses : list string) :
  Forall2 (fun org license => get org "license" = Ok (VStr license)) orgs licenses ->
  Forall ordinary licenses ->
  forall (seen : list string) (counts : list (string * value)),
    (forall key, lookup key counts = tally (count_occ string_dec seen key)) ->
    exists histogram,
      fold_left (fun acc org =>
                   let* counts := acc in
                   let* license := get org "license" in
                   Ok (Organizations.count_license (to_string license) counts))
                orgs (Ok counts) = Ok histogram /\
      forall key,
        lookup key histogram = tally (count_occ string_dec (seen ++ licenses)%list key).
Proof.
  induction 1 as [| org license orgs licenses Hl _ IH]; intros Hord seen counts Hinv;
    cbn [fold_left].
  - exists counts. split; [reflexivity |]. intros key. rewrite app_nil_r. apply Hinv.
  - inversion Hord as [| ? ? Hlicense Hrest]; subst.
    rewrite Hl. cbn [bind to_string]. rewrite (count_license_ordinary _ _ Hlicense).
    destruct (IH Hrest (seen ++ [license])%list
                 (set license (add (or (lookup license counts) (VNum 0)) (VNum 1)) counts))
      as (h & Hh & Hkeys).
    + intros key. rewrite lookup_set, count_occ_app. cbn [count_occ].
      destruct (String.eqb key license) eqn:E.
      * apply String.eqb_eq in E; subst key.
        destruct (string_dec license license) as [_ | N]; [| contradiction].
        rewrite Hinv, tally_step. f_equal. lia.
      * apply String.eqb_neq in E.
        destruct (string_dec license key) as [Y | _]; [congruence |].
        rewrite Hinv. f_equal. lia.
    + exists h. split; [exact Hh |]. intros key.
      rewrite Hkeys, <- app_assoc. reflexivity.
Qed.

(** C7.  The license histogram is an object literal used as a map, and a
    license that is the name of something every object inherits is not
    counted as the others are.  With the licenses "FREE", "constructor",
    "constructor" the bucket of "constructor" is not 2 but a string, made
    of the text of the inherited function and a "1" per organization; a
    license "__proto__" leaves no bucket at all; and the route sends such a
    histogram out when an account's details name such a license. *)
Theorem license_histogram_miscounts_inherited_names :
  Organizations.licenseBreakdown
    [ Samples.org_with 1 "FREE"; Samples.org_with 1 "constructor";
      Samples.org_with 1 "constructor" ]
  = Ok [ ("FREE", VNum 1);
         ("constructor", VStr "function Object() { [native code] }11") ] /\
  Organizations.licenseBreakdown [Samples.org_with 1 "__proto__"] = Ok [] /\
  get_opt (get_opt (body (Organizations.GET Samples.oddly_licensed Samples.configured
                                            "2024-05-01T00:00:00.000Z"))
                   "totals")
          "licenseBreakdown"
  = VObj [("constructor", VStr "function Object() { [native code] }1")].
Proof.
  split; [reflexivity |]. split; reflexivity.
Qed.

(** X29.  For licenses that are strings other than the twelve names an
    object inherits, the license histogram maps each key to the number of
    organizations whose license is exactly that string, and holds nothing
    for a string no organization bears; strings that differ only in case
    are different keys. *)
Theorem license_histogram_counts_exact_strings
        (orgs : list value) (licenses : list string) :
  Forall2 (fun org license => get org "license" = Ok (VStr license)) orgs licenses ->
  Forall ordinary licenses ->
  exists histogram,
    Organizations.licenseBreakdown orgs = Ok histogram /\
    forall key, lookup key histogram = tally (count_occ string_dec licenses key).
Proof.
  intros H Hord.
  destruct (licenseBreakdown_tallies orgs licenses H Hord [] []) as (h & Hh & Hkeys).
  - intros key. reflexivity.
  - exists h. split; [exact Hh | exact Hkeys].
Qed.

Lemma license_histogram_counts_exact_strings_witness :
  exists histogram,
    Organizations.licenseBreakdown Samples.three_orgs = Ok histogram /\
    lookup "FREE" histogram = VNum 2 /\
    lookup "Enterprise" histogram = VNum 1 /\
    lookup "Free" histogram = VUndef.
Proof.
  assert (H : Forall2 (fun org license => get org "license" = Ok (VStr license))
                      Samples.three_orgs ["FREE"; "Enterprise"; "FREE"])
    by (repeat constructor).
  assert (Hord : Forall ordinary ["FREE"; "Enterprise"; "FREE"])
    by (repeat constructor).
  destruct (license_histogram_counts_exact_strings _ _ H Hord) as (h & Hh & Hkeys).
  exists h. split; [exact Hh |].
  split; [exact (Hkeys "FREE") |]. split; [exact (Hkeys "Enterprise") |].
  exact (Hkeys "Free").
Defined.

(** The histogram of the spec's example, as the object it is. *)
Example license_histogram_example :
  Organizations.licenseBreakdown Samples.three_orgs
    = Ok [("FREE", VNum 2); ("Enterprise", VNum 1)].
Proof. reflexivity. Qed.

Example license_case_is_kept :
  Organizations.licenseBreakdown [Samples.org_with 1 "Free"; Samples.org_with 1 "FREE"]
    = Ok [("Free", VNum 1); ("FREE", VNum 1)].
Proof. reflexivity. Qed.

(** *** The credentials route *)

Lemma string_length_field (s : string) :
  or (get_opt (VStr s) "length") (VNum 0) = VNum (Z.of_nat (String.length s)).
Proof.
  cbn. unfold or. cbn [truthy].
  destruct (Z.of_nat (String.length s) =? 0) eqn:E; cbn [negb]; [| reflexivity].
  apply Z.eqb_eq in E. now rewrite E.
Qed.

Lemma nonempty_length (s : string) : s <> EmptyString -> 0 < Z.of_nat (String.length s).
Proof.
  destruct s; [congruence | cbn [String.length]; lia].
Qed.

(** What [POST] does when the submitted strings are non-empty and the
    token endpoint accepts them. *)
Lemma run_POST_accepted
      (w : upstream) (s : Credentials.state) (parsed : value)
      (clientId clientSecret : string) (r : response) (authData access_token : value) :
  get parsed "clientId" = Ok (VStr clientId) ->
  get parsed "clientSecret" = Ok (VStr clientSecret) ->
  clientId <> EmptyString -> clientSecret <> EmptyString ->
  w (Post "https://auth.blumira.com/oauth/token"
          (VObj [ ("grant_type", VStr "client_credentials");
                  ("client_id", VStr clientId);
                  ("client_secret", VStr clientSecret);
                  ("audience", VStr "public-api") ])) = Responded r ->
  ok r = true -> json r = Some authData ->
  get authData "access_token" = Ok access_token -> truthy access_token = true ->
  exists posted,
    run w (Credentials.POST s (Some parsed)) = Ok posted /\
    code (fst posted) = 200 /\
    Credentials.env (snd posted)
      = {| BLUMIRA_CLIENT_ID := Some clientId; BLUMIRA_CLIENT_SECRET := Some clientSecret |}.
Proof.
  intros Hid Hsec Hid' Hsec' Hw Hok Hjson Htok Htruthy.
  unfold Credentials.POST. rewrite Hid, Hsec. cbn [bind truthy].
  apply String.eqb_neq in Hid', Hsec'. rewrite Hid', Hsec'. cbn [negb orb run].
  rewrite Hw, Hok. cbn [negb]. unfold parse_json. rewrite Hjson. cbn [bind].
  rewrite Htok, Htruthy. cbn [negb]. unfold Credentials.respond. cbn [run to_string].
  eexists. split; [reflexivity |]. split; reflexivity.
Qed.

(** C8.  After a [POST] of non-empty strings that the token endpoint
    accepts, [GET] reports [hasCredentials = true] and the lengths of the
    two submitted strings, which are not zero; after a [DELETE], [GET]
    reports [hasCredentials = false]. *)
Theorem credentials_round_trip
        (w : upstream) (s : Credentials.state) (parsed : value)
        (clientId clientSecret : string) (r : response) (authData access_token : value) :
  get parsed "clientId" = Ok (VStr clientId) ->
  get parsed "clientSecret" = Ok (VStr clientSecret) ->
  clientId <> EmptyString -> clientSecret <> EmptyString ->
  w (Post "https://auth.blumira.com/oauth/token"
          (VObj [ ("grant_type", VStr "client_credentials");
                  ("client_id", VStr clientId);
                  ("client_secret", VStr clientSecret);
                  ("audience", VStr "public-api") ])) = Responded r ->
  ok r = true -> json r = Some authData ->
  get authData "access_token" = Ok access_token -> truthy access_token = true ->
  exists posted,
    run w (Credentials.POST s (Some parsed)) = Ok posted /\
    code (fst posted) = 200 /\
    Credentials.GET (snd posted) =
      {| code := 200;
         body := VObj [ ("hasCredentials", VBool true);
                        ("hasClientId", VBool true);
                        ("hasClientSecret", VBool true);
                        ("clientIdLength", VNum (Z.of_nat (String.length clientId)));
                        ("clientSecretLength",
                         VNum (Z.of_nat (String.length clientSecret))) ] |} /\
    0 < Z.of_nat (String.length clientId) /\
    0 < Z.of_nat (String.length clientSecret) /\
    get_opt (body (Credentials.GET (snd (Credentials.DELETE (snd posted)))))
            "hasCredentials" = VBool false.
Proof.
  intros Hid Hsec Hid' Hsec' Hw Hok Hjson Htok Htruthy.
  destruct (run_POST_accepted w s parsed clientId clientSecret r authData access_token
              Hid Hsec Hid' Hsec' Hw Hok Hjson Htok Htruthy)
    as (posted & Hrun & Hcode & Henv).
  exists posted. split; [exact Hrun |]. split; [exact Hcode |].
  split.
  - unfold Credentials.GET. rewrite Henv.
    cbn [BLUMIRA_CLIENT_ID BLUMIRA_CLIENT_SECRET env_value].
    rewrite !string_length_field. cbn [truthy].
    pose proof Hid' as Hid''. pose proof Hsec' as Hsec''.
    apply String.eqb_neq in Hid'', Hsec''. rewrite Hid'', Hsec''. reflexivity.
  - split; [now apply nonempty_length |]. split; [now apply nonempty_length |].
    reflexivity.
Qed.

(** [DELETE] resets the report whatever the state was. *)
Lemma delete_resets (s : Credentials.state) :
  Credentials.GET (snd (Credentials.DELETE s)) =
    {| code := 200;
       body := VObj [ ("hasCredentials", VBool false);
                      ("hasClientId", VBool false);
                      ("hasClientSecret", VBool false);
                      ("clientIdLength", VNum 0);
                      ("clientSecretLength", VNum 0) ] |}.
Proof. reflexivity. Qed.

Lemma credentials_round_trip_witness :
  exists posted,
    run Samples.accepting (Credentials.POST Samples.unconfigured (Some Samples.submitted))
      = Ok posted /\
    code (fst posted) = 200 /\
    get_opt (body (Credentials.GET (snd posted))) "hasCredentials" = VBool true /\
    get_opt (body (Credentials.GET (snd posted))) "clientIdLength" = VNum 9 /\
    get_opt (body (Credentials.GET (snd posted))) "clientSecretLength" = VNum 6 /\
    get_opt (body (Credentials.GET (snd (Credentials.DELETE (snd posted)))))
            "hasCredentials" = VBool false.
Proof.
  assert (Hid : "client-id" <> EmptyString) by discriminate.
  assert (Hsec : "s3cret" <> EmptyString) by discriminate.
  destruct (credentials_round_trip
              Samples.accepting Samples.unconfigured Samples.submitted "client-id" "s3cret"
              Samples.token_answer
              (VObj [("access_token", Samples.token); ("token_type", VStr "Bearer")])
              Samples.token
              eq_refl eq_refl Hid Hsec eq_refl eq_refl eq_refl eq_refl eq_refl)
    as (posted & Hrun & Hcode & Hget & _ & _ & Hdel).
  exists posted. split; [exact Hrun |]. split; [exact Hcode |]. rewrite Hget.
  split; [reflexivity |]. split; [reflexivity |]. split; [reflexivity | exact Hdel].
Defined.

(** *** Scheduling: what is in flight, and when *)



Lemma promise_all_inv {A : Type} (rs : list (result A)) :
  match promise_all rs with
  | Ok vs => rs = map Ok vs
  | Throw e => In (Throw e) rs
  end.
Proof.
  induction rs as [| [v | e] rest IH]; cbn [promise_all].
  - reflexivity.
  - destruct (promise_all rest) as [vs | e]; cbn [bind map].
    + now rewrite IH.
    + now right.
  - now left.
Qed.







Lemma done_is_final {A : Type} (w : upstream) (r : result A) (c : prog A) :
  steps w (Done r) c -> c = Done r.
Proof.
  intros H. inversion H as [| p q r' Hstep _]; subst; [reflexivity |].
  inversion Hstep.
Qed.












Lemma steps_trans {A : Type} (w : upstream) (p q r : prog A) :
  steps w p q -> steps w q r -> steps w p r.
Proof.
  induction 1 as [p | p p' q Hstep _ IH]; intros Hqr; [assumption |].
  econstructor; [exact Hstep | now apply IH].
Qed.

Lemma steps_task {A : Type} (w : upstream) (before after : list (prog A))
      (t t' : prog A) (k : result (list A) -> prog A) :
  steps w t t' ->
  steps w (All (before ++ t :: after) k) (All (before ++ t' :: after) k).
Proof.
  induction 1 as [t | t t1 t' Hstep _ IH]; [constructor |].
  econstructor; [apply step_task; exact Hstep | exact IH].
Qed.

Lemma step_andThen {A : Type} (w : upstream) (p q : prog A) (f : result A -> prog A) :
  step w p q -> step w (andThen p f) (andThen q f).
Proof.
  intros H. destruct H as [rq k | before after t t' k Ht | tasks vs k Hs | tasks e k He];
    cbn [andThen].
  - exact (step_response w rq (fun o => andThen (k o) f)).
  - now apply step_task.
  - exact (step_fulfil w tasks vs (fun rs => andThen (k rs) f) Hs).
  - exact (step_reject w tasks e (fun rs => andThen (k rs) f) He).
Qed.

Lemma steps_andThen {A : Type} (w : upstream) (p q : prog A) (f : result A -> prog A) :
  steps w p q -> steps w (andThen p f) (andThen q f).
Proof.
  induction 1 as [p | p p' q Hstep _ IH]; [constructor |].
  econstructor; [apply step_andThen; exact Hstep | exact IH].
Qed.

(** Induction over programs that also descends into the tasks of a
    [Promise.all]. *)
Fixpoint prog_tasks_ind {A : Type} (P : prog A -> Prop)
         (Hdone : forall r, P (Done r))
         (Hwait : forall rq k, (forall o, P (k o)) -> P (Wait rq k))
         (Hall : forall tasks k, Forall P tasks -> (forall rs, P (k rs)) -> P (All tasks k))
         (p : prog A) : P p :=
  match p with
  | Done r => Hdone r
  | Wait rq k => Hwait rq k (fun o => prog_tasks_ind P Hdone Hwait Hall (k o))
  | All tasks k =>
      Hall tasks k
           ((fix each (l : list (prog A)) : Forall P l :=
               match l with
               | [] => Forall_nil P
               | t :: rest =>
                   Forall_cons t (prog_tasks_ind P Hdone Hwait Hall t) (each rest)
               end) tasks)
           (fun rs => prog_tasks_ind P Hdone Hwait Hall (k rs))
  end.

Lemma tasks_settle {A : Type} (w : upstream) (k : result (list A) -> prog A)
      (tasks : list (prog A)) :
  Forall (fun t => steps w t (Done (run w t))) tasks ->
  forall before,
    steps w (All (before ++ tasks) k)
            (All (before ++ map (fun t => Done (run w t)) tasks) k).
Proof.
  induction 1 as [| t rest Ht _ IH]; intros before; cbn [map].
  - constructor.
  - eapply steps_trans; [apply steps_task; exact Ht |].
    specialize (IH (before ++ [Done (run w t)])%list).
    rewrite <- !app_assoc in IH. exact IH.
Qed.

(** Every program has an execution to the end that ends in what [run]
    computes. *)
Lemma run_is_reached {A : Type} (w : upstream) (p : prog A) :
  steps w p (Done (run w p)).
Proof.
  induction p as [r | rq k IH | tasks k Htasks IH] using prog_tasks_ind; cbn [run].
  - constructor.
  - econstructor; [apply step_response | apply IH].
  - eapply steps_trans; [exact (tasks_settle w k tasks Htasks []) |].
    cbn [app]. econstructor; [| apply IH].
    pose proof (promise_all_inv (map (run w) tasks)) as Hinv.
    destruct (promise_all (map (run w) tasks)) as [vs | e].
    + apply step_fulfil. rewrite map_map. cbn [settled].
      rewrite <- (map_map Ok Some), <- Hinv, map_map. reflexivity.
    + apply step_reject. apply in_map_iff in Hinv. destruct Hinv as (t & Ht & Hin).
      rewrite <- Ht. apply in_map_iff. exists t. split; [reflexivity | exact Hin].
Qed.

(** With a token and an enveloped accounts list, the handler reaches the
    fan-out over the accounts. *)
Lemma GET_reaches_fan_out (w : upstream) (env : process_env) (timestamp : string)
      (token accounts accountsMeta : value) :
  run w (Organizations.getAccessToken env) = Ok token ->
  Organizations.unwrap_accounts (w (accounts_request token)) = Ok (accounts, accountsMeta) ->
  steps w (Organizations.GET_try env timestamp)
          (Organizations.fan_out token accounts accountsMeta timestamp).
Proof.
  intros Htok Hacc. unfold Organizations.GET_try.
  eapply steps_trans.
  - apply steps_andThen. apply run_is_reached.
  - rewrite Htok. cbn [andThen].
    econstructor; [apply step_response |].
    fold (accounts_request token). rewrite Hacc. constructor.
Qed.








(* ================================================================== *)
(** ** Further properties of the organizations route *)

(** X1.  Without both credentials in the environment the handler makes
    no request at all and replies 500 with the message naming the two
    variables. *)
Theorem missing_credentials_abort_the_request
        (w : upstream) (env : process_env) (timestamp : string) :
  truthy (env_value (BLUMIRA_CLIENT_ID env)) = false \/
  truthy (env_value (BLUMIRA_CLIENT_SECRET env)) = false ->
  Organizations.GET w env timestamp =
    {| code := 500;
       body := VObj [ ("error",
                       VStr "BLUMIRA_CLIENT_ID and BLUMIRA_CLIENT_SECRET environment variables are required");
                      ("timestamp", VStr timestamp) ] |} /\
  forall c, steps w (Organizations.GET_try env timestamp) c -> in_flight c = [].
Proof.
  intros Hmissing.
  assert (E : Organizations.GET_try env timestamp =
              Done (Throw (Error
                "BLUMIRA_CLIENT_ID and BLUMIRA_CLIENT_SECRET environment variables are required"))).
  { unfold Organizations.GET_try, Organizations.getAccessToken.
    destruct Hmissing as [H | H]; rewrite H; cbn [negb orb andThen];
      [| rewrite Bool.orb_true_r]; reflexivity. }
  split.
  - unfold Organizations.GET. rewrite E. reflexivity.
  - intros c Hc. rewrite E in Hc. now rewrite (done_is_final w _ _ Hc).
Qed.

Lemma missing_credentials_abort_the_request_witness :
  code (Organizations.GET Samples.fleet
          {| BLUMIRA_CLIENT_ID := Some "client-id"; BLUMIRA_CLIENT_SECRET := None |}
          "2024-05-01T00:00:00.000Z") = 500.
Proof.
  destruct (missing_credentials_abort_the_request
              Samples.fleet
              {| BLUMIRA_CLIENT_ID := Some "client-id"; BLUMIRA_CLIENT_SECRET := None |}
              "2024-05-01T00:00:00.000Z" (or_intror eq_refl)) as (E & _).
  rewrite E. reflexivity.
Defined.

Lemma getAccessToken_configured (env : process_env) (id secret : string) :
  BLUMIRA_CLIENT_ID env = Some id -> id <> EmptyString ->
  BLUMIRA_CLIENT_SECRET env = Some secret -> secret <> EmptyString ->
  exists k,
    Organizations.getAccessToken env = Wait (token_request id secret) k /\
    forall r, k (Responded r) =
              if negb (ok r) then
                Done (Throw (Error ("Authentication failed (" ++ show_Z (status r)
                                    ++ "): " ++ text r)))
              else Done (let* data := parse_json r in get data "access_token").
Proof.
  intros Hid Hid' Hsec Hsec'.
  unfold Organizations.getAccessToken. rewrite Hid, Hsec. cbn [env_value truthy].
  apply String.eqb_neq in Hid', Hsec'. rewrite Hid', Hsec'. cbn [negb orb].
  eexists. split; [reflexivity |]. intros r. reflexivity.
Qed.

(** X2.  When the token endpoint turns the credentials down, the reply
    is a 500 carrying its status and body, and the token request is the
    only request the handler ever makes. *)
Theorem refused_credentials_abort_the_request
        (w : upstream) (env : process_env) (timestamp : string)
        (id secret : string) (r : response) :
  BLUMIRA_CLIENT_ID env = Some id -> id <> EmptyString ->
  BLUMIRA_CLIENT_SECRET env = Some secret -> secret <> EmptyString ->
  w (token_request id secret) = Responded r -> ok r = false ->
  Organizations.GET w env timestamp =
    {| code := 500;
       body := VObj [ ("error", VStr ("Authentication failed (" ++ show_Z (status r)
                                      ++ "): " ++ text r));
                      ("timestamp", VStr timestamp) ] |} /\
  forall c rq, steps w (Organizations.GET_try env timestamp) c ->
               In rq (in_flight c) -> rq = token_request id secret.
Proof.
  intros Hid Hid' Hsec Hsec' Hw Hok.
  destruct (getAccessToken_configured env id secret Hid Hid' Hsec Hsec') as (k & Ek & Hk).
  split.
  - unfold Organizations.GET, Organizations.GET_try.
    rewrite run_andThen, Ek. cbn [run]. rewrite Hw, Hk, Hok. reflexivity.
  - intros c rq Hc Hin. unfold Organizations.GET_try in Hc. rewrite Ek in Hc.
    cbn [andThen] in Hc.
    inversion Hc as [| p q r' Hstep Hrest]; subst.
    + cbn in Hin. destruct Hin as [<- | []]. reflexivity.
    + inversion Hstep; subst. rewrite Hw, Hk, Hok in Hrest. cbn [negb andThen] in Hrest.
      rewrite (done_is_final w _ _ Hrest) in Hin. destruct Hin.
Qed.

Lemma refused_credentials_abort_the_request_witness :
  Organizations.GET Samples.refusing Samples.configured "2024-05-01T00:00:00.000Z" =
    {| code := 500;
       body := VObj [ ("error", VStr "Authentication failed (401): access_denied");
                      ("timestamp", VStr "2024-05-01T00:00:00.000Z") ] |}.
Proof.
  assert (Hid : "client-id" <> EmptyString) by discriminate.
  assert (Hsec : "s3cret" <> EmptyString) by discriminate.
  destruct (refused_credentials_abort_the_request
              Samples.refusing Samples.configured "2024-05-01T00:00:00.000Z"
              "client-id" "s3cret"
              {| status := 401; statusText := "Unauthorized";
                 text := "access_denied"; json := None |}
              eq_refl Hid eq_refl Hsec eq_refl eq_refl) as (E & _).
  exact E.
Defined.

Lemma unwrap_details_failed (fetched : outcome) :
  fetch_failed fetched -> Organizations.unwrap_details fetched = VNull.
Proof.
  destruct fetched as [e | r]; cbn [fetch_failed Organizations.unwrap_details]; auto.
  intros [H | [e H]].
  - now rewrite H.
  - destruct (ok r); [| reflexivity].
    destruct (parse_json r) as [data | e']; cbn [bind try_catch] in *; [| reflexivity].
    now rewrite H.
Qed.

Lemma unwrap_list_nothing (fetched : outcome) :
  brings_nothing fetched -> fst (Organizations.unwrap_list fetched) = VArr [].
Proof.
  intros [H | (r & body & -> & Hjson & Hdata)].
  - now rewrite (unwrap_list_failed _ H).
  - cbn [Organizations.unwrap_list]. destruct (ok r); [| reflexivity].
    unfold parse_json. rewrite Hjson. cbn [bind].
    destruct (get_total _ _ _ "status" Hdata) as (st & ->).
    destruct (get_total _ _ _ "meta" Hdata) as (meta & Hmeta).
    cbn [bind]. destruct (is_str st "OK"); [| reflexivity].
    rewrite Hdata. cbn [bind truthy]. rewrite Hmeta. reflexivity.
Qed.

(** The two ways [fetchAccountDetails] ends: with the summary computed
    from the four payloads, or, when that computation throws, with the
    empty summary. *)
Lemma account_summary_cases (w : upstream) (token accountId : value) :
  let ad := Organizations.unwrap_details (w (details_request token accountId)) in
  let dv := Organizations.unwrap_list (w (devices_request token accountId)) in
  let ks := Organizations.unwrap_list (w (keys_request token accountId)) in
  let fs := Organizations.unwrap_list (w (findings_request token accountId)) in
  (exists s,
      Organizations.summarize ad (fst dv) (snd dv) (fst ks) (snd ks) (fst fs) (snd fs) = Ok s /\
      run w (Organizations.fetchAccountDetails token accountId) = Ok s)
  \/ (exists e,
         Organizations.summarize ad (fst dv) (snd dv) (fst ks) (snd ks) (fst fs) (snd fs)
           = Throw e /\
         run w (Organizations.fetchAccountDetails token accountId)
           = Ok Organizations.empty_summary).
Proof.
  intros ad dv ks fs. rewrite run_fetchAccountDetails.
  fold (details_request token accountId) (devices_request token accountId)
       (keys_request token accountId) (findings_request token accountId).
  fold ad dv ks fs.
  destruct (Organizations.summarize ad (fst dv) (snd dv) (fst ks) (snd ks) (fst fs) (snd fs))
    as [s | e]; cbn [try_catch]; [left | right]; eauto.
Qed.

(** X3.  An account whose devices fetch fails, or brings an empty list,
    has no device and all four status counts at zero. *)
Theorem no_devices_means_zero_counts (w : upstream) (token accountId : value) :
  brings_nothing (w (devices_request token accountId)) ->
  exists summary,
    run w (Organizations.fetchAccountDetails token accountId) = Ok summary /\
    get_opt summary "agentDevices" = VArr [] /\
    get_opt summary "agentDeviceCount" = VNum 0 /\
    get_opt summary "onlineDevices" = VNum 0 /\
    get_opt summary "sleepingDevices" = VNum 0 /\
    get_opt summary "isolatedDevices" = VNum 0 /\
    get_opt summary "excludedDevices" = VNum 0.
Proof.
  intros Hnone. apply unwrap_list_nothing in Hnone.
  destruct (account_summary_cases w token accountId) as [(s & Hs & ->) | (e & _ & ->)].
  - apply summarize_ok in Hs.
    destruct Hs as (devices & findings & kc & c & o & Hd & _ & _ & _ & _ & ->).
    rewrite Hnone in Hd. injection Hd as <-.
    eexists. split; [reflexivity |]. rewrite Hnone. cbn. repeat split; reflexivity.
  - eexists. split; [reflexivity |]. cbn. repeat split; reflexivity.
Qed.

Lemma no_devices_means_zero_counts_witness :
  exists summary,
    run Samples.fleet (Organizations.fetchAccountDetails Samples.token Samples.acme)
      = Ok summary /\
    get_opt summary "agentDeviceCount" = VNum 0 /\
    get_opt summary "onlineDevices" = VNum 0.
Proof.
  destruct (no_devices_means_zero_counts Samples.fleet Samples.token Samples.acme
              (or_introl I))
    as (summary & Hrun & _ & Hcount & Honline & _).
  exists summary. split; [exact Hrun |]. split; [exact Hcount | exact Honline].
Defined.

(** X4.  When the account-details fetch fails, the summary carries
    [accountDetails = null] and the defaults: license "Unknown", agent
    capacity 0 of 0, and no users; whatever the other three fetches
    bring. *)
Theorem failed_details_give_defaults (w : upstream) (token accountId : value) :
  fetch_failed (w (details_request token accountId)) ->
  exists summary,
    run w (Organizations.fetchAccountDetails token accountId) = Ok summary /\
    get_opt summary "accountDetails" = VNull /\
    get_opt summary "license" = VStr "Unknown" /\
    get_opt summary "agent_count_available" = VNum 0 /\
    get_opt summary "agent_count_used" = VNum 0 /\
    get_opt summary "user_count" = VNum 0.
Proof.
  intros Hfail. apply unwrap_details_failed in Hfail.
  destruct (account_summary_cases w token accountId) as [(s & Hs & ->) | (e & _ & ->)].
  - apply summarize_ok in Hs.
    destruct Hs as (devices & findings & kc & c & o & _ & _ & _ & _ & _ & ->).
    eexists. split; [reflexivity |]. rewrite Hfail. cbn. repeat split; reflexivity.
  - eexists. split; [reflexivity |]. cbn. repeat split; reflexivity.
Qed.

Lemma failed_details_give_defaults_witness :
  exists summary,
    run Samples.fleet (Organizations.fetchAccountDetails Samples.token Samples.globex)
      = Ok summary /\
    get_opt summary "license" = VStr "Unknown" /\
    get_opt summary "findingsCount" = VNum 2.
Proof.
  destruct (failed_details_give_defaults Samples.fleet Samples.token Samples.globex I)
    as (summary & Hrun & _ & Hlicense & _).
  exists summary. split; [exact Hrun |]. split; [exact Hlicense |].
  assert (E : summary = match run Samples.fleet
                               (Organizations.fetchAccountDetails Samples.token Samples.globex)
                        with Ok v => v | Throw _ => VUndef end)
    by (rewrite Hrun; reflexivity).
  vm_compute in E. subst summary. reflexivity.
Defined.

Lemma count_if_readable (p : value -> result bool) (l : list value) (n : Z) :
  (forall d b, p d = Ok b -> readable d) ->
  count_if p l = Ok n -> Forall readable l.
Proof.
  intros Hp. revert n; induction l as [| d rest IH]; intros n H; constructor.
  - apply count_if_cons in H. destruct H as (b & m & Hb & _ & _). exact (Hp d b Hb).
  - apply count_if_cons in H. destruct H as (b & m & _ & Hm & _). exact (IH m Hm).
Qed.

Lemma get_readable (d x : value) (k : string) : get d k = Ok x -> readable d.
Proof.
  intros H k'. exact (get_total d x k k' H).
Qed.

Lemma flag_readable (name : string) (d : value) (b : bool) :
  Organizations.flag name d = Ok b -> readable d.
Proof.
  unfold Organizations.flag. intros H. bind_inv H. exact (get_readable _ _ _ Hx).
Qed.

Lemma is_critical_readable (f : value) (b : bool) :
  Organizations.is_critical f = Ok b -> readable f.
Proof.
  unfold Organizations.is_critical. intros H. bind_inv H. exact (get_readable _ _ _ Hx).
Qed.

(** When the summary is computed, the devices and the findings are
    arrays whose elements can all be read. *)
Lemma summarize_needs_readable_arrays (ad dv dm ks km fs fm s : value) :
  Organizations.summarize ad dv dm ks km fs fm = Ok s ->
  readable_array dv /\ readable_array fs.
Proof.
  unfold Organizations.summarize. intros H.
  do 8 bind_inv H.
  repeat match goal with
         | E : filter_length _ _ = Ok _ |- _ =>
             apply filter_length_ok in E;
             let l := fresh "l" in
             let n := fresh "n" in
             let Hn := fresh "Hn" in
             destruct E as (l & n & ? & Hn & _)
         end.
  split.
  - match goal with
    | E : dv = VArr ?l, C : count_if (Organizations.flag "is_sleeping") ?l = Ok _ |- _ =>
        exists l; split;
        [exact E | exact (count_if_readable _ _ _ (flag_readable "is_sleeping") C)]
    end.
  - match goal with
    | E : fs = VArr ?l, C : count_if Organizations.is_critical ?l = Ok _ |- _ =>
        exists l; split;
        [exact E | exact (count_if_readable _ _ _ is_critical_readable C)]
    end.
Qed.

(** X5.  The summary is all or nothing: when the devices or the
    findings payload is not an array of readable elements (an object, a
    string, a list holding [null]), the whole summary is the empty one,
    and what the details and keys fetches brought is lost with it. *)
Theorem malformed_lists_collapse_the_summary (w : upstream) (token accountId : value) :
  ~ readable_array
      (fst (Organizations.unwrap_list (w (devices_request token accountId)))) \/
  ~ readable_array
      (fst (Organizations.unwrap_list (w (findings_request token accountId)))) ->
  run w (Organizations.fetchAccountDetails token accountId)
    = Ok Organizations.empty_summary.
Proof.
  intros Hbad.
  destruct (account_summary_cases w token accountId) as [(s & Hs & _) | (e & _ & H)];
    [| exact H].
  apply summarize_needs_readable_arrays in Hs. destruct Hs as (Hd & Hf).
  destruct Hbad as [Hbad | Hbad]; contradiction.
Qed.

Lemma malformed_lists_collapse_the_summary_witness :
  Organizations.unwrap_details
    (Samples.odd_devices (details_request Samples.token Samples.acme))
    = VObj [("license", VStr "PREMIUM")] /\
  exists summary,
    run Samples.odd_devices (Organizations.fetchAccountDetails Samples.token Samples.acme)
      = Ok summary /\
    get_opt summary "accountDetails" = VNull /\
    get_opt summary "license" = VStr "Unknown".
Proof.
  split; [reflexivity |].
  assert (Hbad : ~ readable_array
                     (fst (Organizations.unwrap_list
                             (Samples.odd_devices
                                (devices_request Samples.token Samples.acme))))).
  { intros (l & E & _). vm_compute in E. discriminate E. }
  exists Organizations.empty_summary.
  split; [| split; reflexivity].
  exact (malformed_lists_collapse_the_summary
           Samples.odd_devices Samples.token Samples.acme (or_introl Hbad)).
Defined.

Lemma truthy_readable (v : value) : truthy v = true -> readable v.
Proof.
  intros H k. destruct v; try discriminate; cbn [get]; eauto.
  all: destruct (String.eqb k "length"); eauto.
Qed.

Lemma array_readable (l : list value) : readable (VArr l).
Proof. apply truthy_readable. reflexivity. Qed.

(** The list a list fetch yields is never [null] or [undefined]. *)
Lemma unwrap_list_readable (fetched : outcome) :
  readable (fst (Organizations.unwrap_list fetched)).
Proof.
  destruct fetched as [e | r]; cbn [Organizations.unwrap_list fst];
    [apply array_readable |].
  destruct (ok r); [| apply array_readable].
  destruct (parse_json r) as [body | e]; cbn [bind try_catch fst]; [| apply array_readable].
  destruct (get body "status") as [st | e]; cbn [bind try_catch fst]; [| apply array_readable].
  destruct (is_str st "OK"); [| apply array_readable].
  destruct (get body "data") as [data | e]; cbn [bind try_catch fst]; [| apply array_readable].
  destruct (truthy data) eqn:Ht; [| apply array_readable].
  destruct (get body "meta") as [meta | e]; cbn [bind try_catch fst];
    [now apply truthy_readable | apply array_readable].
Qed.

Lemma count_if_total (p : value -> result bool) (l : list value) :
  (forall d, readable d -> exists b, p d = Ok b) ->
  Forall readable l -> exists n, count_if p l = Ok n.
Proof.
  intros Hp. induction 1 as [| d rest Hd _ (n & IH)]; cbn [count_if]; [eauto |].
  destruct (Hp d Hd) as (b & ->). rewrite IH. cbn [bind]. eauto.
Qed.

Lemma flag_total (name : string) (d : value) :
  readable d -> exists b, Organizations.flag name d = Ok b.
Proof.
  intros Hd. unfold Organizations.flag. destruct (Hd name) as (x & ->).
  cbn [bind]. eauto.
Qed.

Lemma is_online_total (d : value) :
  readable d -> exists b, Organizations.is_online d = Ok b.
Proof.
  intros Hd. unfold Organizations.is_online.
  destruct (Hd "is_sleeping") as (x & ->). destruct (Hd "alive") as (y & Hy).
  cbn [bind]. destruct (negb (truthy x)); [rewrite Hy; cbn [bind] |]; eauto.
Qed.

Lemma is_critical_total (f : value) :
  readable f -> exists b, Organizations.is_critical f = Ok b.
Proof.
  intros Hf. unfold Organizations.is_critical. destruct (Hf "priority") as (x & ->).
  cbn [bind]. eauto.
Qed.

Lemma is_open_total (f : value) :
  readable f -> exists b, Organizations.is_open f = Ok b.
Proof.
  intros Hf. unfold Organizations.is_open. destruct (Hf "status_name") as (x & ->).
  cbn [bind]. eauto.
Qed.

Lemma summarize_total (ad dv dm ks km fs fm : value) :
  readable_array dv -> readable ks -> readable_array fs ->
  exists s, Organizations.summarize ad dv dm ks km fs fm = Ok s.
Proof.
  intros (devices & -> & Hd) Hk (findings & -> & Hf).
  unfold Organizations.summarize. cbn [filter_length].
  destruct (count_if_total _ devices is_online_total Hd) as (n1 & ->).
  destruct (count_if_total _ devices (flag_total "is_sleeping") Hd) as (n2 & ->).
  destruct (count_if_total _ devices (flag_total "is_isolated") Hd) as (n3 & ->).
  destruct (count_if_total _ devices (flag_total "is_excluded") Hd) as (n4 & ->).
  destruct (count_if_total _ findings is_critical_total Hf) as (n5 & ->).
  destruct (count_if_total _ findings is_open_total Hf) as (n6 & ->).
  destruct (Hk "length") as (kc & ->).
  cbn. eauto.
Qed.

(** X6.  When the devices and the findings come as arrays of readable
    elements, the summary is computed, and each of the four fetches
    contributes exactly what it brought: none of them can change what
    another one contributes. *)
Theorem wellformed_lists_keep_every_fetch (w : upstream) (token accountId : value) :
  readable_array
    (fst (Organizations.unwrap_list (w (devices_request token accountId)))) ->
  readable_array
    (fst (Organizations.unwrap_list (w (findings_request token accountId)))) ->
  exists summary,
    run w (Organizations.fetchAccountDetails token accountId) = Ok summary /\
    get_opt summary "accountDetails"
      = Organizations.unwrap_details (w (details_request token accountId)) /\
    get_opt summary "agentDevices"
      = fst (Organizations.unwrap_list (w (devices_request token accountId))) /\
    get_opt summary "agentKeys"
      = fst (Organizations.unwrap_list (w (keys_request token accountId))) /\
    get_opt summary "findings"
      = fst (Organizations.unwrap_list (w (findings_request token accountId))).
Proof.
  intros Hd Hf.
  destruct (account_summary_cases w token accountId) as [(s & Hs & ->) | (e & He & _)].
  - apply summarize_ok in Hs.
    destruct Hs as (devices & findings & kc & c & o & _ & _ & _ & _ & _ & ->).
    eexists. split; [reflexivity |]. cbn. repeat split; reflexivity.
  - exfalso.
    destruct (summarize_total
                (Organizations.unwrap_details (w (details_request token accountId)))
                _ (snd (Organizations.unwrap_list (w (devices_request token accountId))))
                _ (snd (Organizations.unwrap_list (w (keys_request token accountId))))
                _ (snd (Organizations.unwrap_list (w (findings_request token accountId))))
                Hd (unwrap_list_readable (w (keys_request token accountId))) Hf)
      as (s & Hs).
    rewrite Hs in He. discriminate He.
Qed.

Lemma wellformed_lists_keep_every_fetch_witness :
  exists summary,
    run Samples.fleet (Organizations.fetchAccountDetails Samples.token Samples.globex)
      = Ok summary /\
    get_opt summary "agentDevices" = VArr [] /\
    get_opt summary "findings"
      = VArr [Samples.finding "phish" "Open" 1; Samples.finding "scan" "Closed" 3].
Proof.
  assert (Hd : readable_array
                 (fst (Organizations.unwrap_list
                         (Samples.fleet (devices_request Samples.token Samples.globex)))))
    by (exists []; split; [reflexivity | constructor]).
  assert (Hf : readable_array
                 (fst (Organizations.unwrap_list
                         (Samples.fleet (findings_request Samples.token Samples.globex))))).
  { eexists. split; [vm_compute; reflexivity |].
    repeat constructor; intros k; cbn; eauto. }
  destruct (wellformed_lists_keep_every_fetch
              Samples.fleet Samples.token Samples.globex Hd Hf)
    as (summary & Hrun & _ & Hdev & _ & Hfind).
  exists summary. split; [exact Hrun |]. split; [exact Hdev | exact Hfind].
Defined.

(* ------------------------------------------------------------------ *)
(** *** The organization records *)

Lemma mem_In (k : string) (keys : list string) : mem k keys = true <-> In k keys.
Proof.
  unfold mem. rewrite existsb_exists. split.
  - intros (x & Hin & E). apply String.eqb_eq in E. now subst.
  - intros Hin. exists k. split; [assumption | apply String.eqb_refl].
Qed.

Lemma mem_not_In (k : string) (keys : list string) : mem k keys = false -> ~ In k keys.
Proof.
  intros H Hin. apply mem_In in Hin. congruence.
Qed.


(** Every property of the record built by the mapped callback. *)
Lemma org_record_field (base dprops : list (string * value))
      (accountId name open_findings : value) (k : string) :
  map fst dprops = summary_keys ->
  lookup k (assign (assign base dprops)
              [("id", accountId); ("name", name); ("open_findings", open_findings)])
  = if String.eqb k "id" then accountId
    else if String.eqb k "name" then name
    else if String.eqb k "open_findings" then open_findings
    else if mem k summary_keys then lookup k dprops
    else lookup k base.
Proof.
  intros Hkeys. rewrite !assign_cons. cbn [assign fold_left]. rewrite !lookup_set.
  destruct (String.eqb_spec k "id") as [-> | _]; [reflexivity |].
  destruct (String.eqb_spec k "name") as [-> | _]; [reflexivity |].
  destruct (String.eqb_spec k "open_findings") as [-> | _]; [reflexivity |].
  fold (assign base dprops).
  destruct (mem k summary_keys) eqn:Hmem.
  - apply mem_In in Hmem. apply lookup_assign_nodup; rewrite Hkeys;
      [apply summary_keys_nodup | assumption].
  - apply mem_not_In in Hmem. apply lookup_assign_other. now rewrite Hkeys.
Qed.

(** X7.  The record of an organization, property by property: [id] and
    [name] come from the account, [open_findings] from the account or
    the local count, the twenty properties of the summary from the
    summary even when the account has properties of the same names, and
    every other property of the account is passed through unchanged. *)
Theorem organization_record_fields
        (w : upstream) (token account accountId : value) (k : string) :
  get account "account_id" = Ok accountId ->
  exists details org,
    run w (Organizations.fetchAccountDetails token accountId) = Ok details /\
    run w (Organizations.org_task token account) = Ok org /\
    get_opt org k =
      if String.eqb k "id" then accountId
      else if String.eqb k "name" then get_opt account "name"
      else if String.eqb k "open_findings"
           then or (get_opt account "open_findings") (get_opt details "openFindingsCount")
      else if mem k summary_keys then get_opt details k
      else lookup k (own_props account).
Proof.
  intros Hid.
  destruct (details_shape w token accountId) as (dprops & Hrun & Hkeys & _).
  exists (VObj dprops). eexists.
  split; [exact Hrun |]. split; [exact (run_org_task _ _ _ _ _ Hid Hrun) |].
  cbn [get_opt get]. now apply org_record_field.
Qed.

Lemma organization_record_fields_witness :
  exists details org,
    run Samples.fleet (Organizations.fetchAccountDetails Samples.token Samples.globex)
      = Ok details /\
    run Samples.fleet (Organizations.org_task Samples.token Samples.globex_account)
      = Ok org /\
    get_opt org "account_id" = Samples.globex /\
    get_opt org "name" = VStr "Globex".
Proof.
  destruct (organization_record_fields
              Samples.fleet Samples.token Samples.globex_account Samples.globex
              "account_id" eq_refl) as (details & org & Hd & Ho & Hfield).
  destruct (organization_record_fields
              Samples.fleet Samples.token Samples.globex_account Samples.globex
              "name" eq_refl) as (details' & org' & _ & Ho' & Hname).
  assert (org' = org) by congruence. subst org'.
  exists details, org. split; [exact Hd |]. split; [exact Ho |].
  split; [exact Hfield | exact Hname].
Defined.



(* ------------------------------------------------------------------ *)
(** *** The handler on malformed and empty accounts lists *)

Lemma promise_all_rejects {A : Type} (rs : list (result A)) (e : exn) :
  In (Throw e) rs -> exists e', promise_all rs = Throw e'.
Proof.
  induction rs as [| [v | e0] rest IH]; intros Hin; [destruct Hin | |].
  - destruct Hin as [Hin | Hin]; [discriminate |].
    destruct (IH Hin) as (e' & He'). cbn [promise_all]. rewrite He'. cbn [bind]. eauto.
  - cbn [promise_all]. eauto.
Qed.

(** X9.  One entry of the accounts list whose [account_id] cannot be
    read ([null]) fails the whole request: the reply is a 500 without
    any organization, whatever the other accounts are, and the handler
    can send it at once, without waiting for their fetches. *)
Theorem unreadable_account_fails_the_request
        (w : upstream) (env : process_env) (timestamp : string)
        (token accountsMeta account : value) (accounts : list value) (e : exn) :
  run w (Organizations.getAccessToken env) = Ok token ->
  Organizations.unwrap_accounts (w (accounts_request token))
    = Ok (VArr accounts, accountsMeta) ->
  In account accounts ->
  get account "account_id" = Throw e ->
  code (Organizations.GET w env timestamp) = 500 /\
  get_opt (body (Organizations.GET w env timestamp)) "organizations" = VUndef /\
  step w (Organizations.fan_out token (VArr accounts) accountsMeta timestamp)
         (Done (Throw e)).
Proof.
  intros Htok Hacc Hin Hid.
  assert (Htask : Organizations.org_task token account = Done (Throw e))
    by (unfold Organizations.org_task; now rewrite Hid).
  split; [| split].
  - unfold Organizations.GET. rewrite (run_GET_try _ _ _ _ Htok), Hacc.
    cbn [Organizations.fan_out run].
    destruct (promise_all_rejects
                (map (run w) (map (Organizations.org_task token) accounts)) e)
      as (e' & ->); [| reflexivity].
    apply in_map_iff. exists (Organizations.org_task token account).
    split; [now rewrite Htask | now apply in_map].
  - unfold Organizations.GET. rewrite (run_GET_try _ _ _ _ Htok), Hacc.
    cbn [Organizations.fan_out run].
    destruct (promise_all_rejects
                (map (run w) (map (Organizations.org_task token) accounts)) e)
      as (e' & ->); [| reflexivity].
    apply in_map_iff. exists (Organizations.org_task token account).
    split; [now rewrite Htask | now apply in_map].
  - cbn [Organizations.fan_out].
    apply (step_reject w _ e
             (fun settled => Done (Organizations.finish accountsMeta timestamp settled))).
    rewrite <- Htask. now apply in_map.
Qed.

Lemma unreadable_account_fails_the_request_witness :
  code (Organizations.GET Samples.holed Samples.configured "2024-05-01T00:00:00.000Z")
    = 500.
Proof.
  destruct (unreadable_account_fails_the_request
              Samples.holed Samples.configured "2024-05-01T00:00:00.000Z"
              Samples.token (VObj []) VNull
              [Samples.acme_account; VNull; Samples.globex_account]
              (Error "Cannot read properties of null (reading 'account_id')")
              eq_refl eq_refl (or_intror (or_introl eq_refl)) eq_refl)
    as (Hcode & _).
  exact Hcode.
Defined.

(** X10.  With no account in the accounts list the reply is still a
    200: no organization, every total at zero, and an empty license
    histogram. *)
Theorem empty_accounts_list_gives_zero_totals
        (w : upstream) (env : process_env) (timestamp : string)
        (token accountsMeta : value) :
  run w (Organizations.getAccessToken env) = Ok token ->
  Organizations.unwrap_accounts (w (accounts_request token)) = Ok (VArr [], accountsMeta) ->
  code (Organizations.GET w env timestamp) = 200 /\
  get_opt (body (Organizations.GET w env timestamp)) "organizations" = VArr [] /\
  get_opt (body (Organizations.GET w env timestamp)) "totals" =
    VObj [ ("totalAgentDevices", VNum 0); ("totalAgentKeys", VNum 0);
           ("totalFindings", VNum 0); ("totalCriticalFindings", VNum 0);
           ("totalOpenFindings", VNum 0); ("totalOnlineDevices", VNum 0);
           ("totalSleepingDevices", VNum 0); ("totalIsolatedDevices", VNum 0);
           ("totalExcludedDevices", VNum 0); ("totalAgentCountAvailable", VNum 0);
           ("totalAgentCountUsed", VNum 0); ("totalUserCount", VNum 0);
           ("licenseBreakdown", VObj []) ] /\
  get_opt (get_opt (body (Organizations.GET w env timestamp)) "debug") "organizationCount"
    = VNum 0.
Proof.
  intros Htok Hacc.
  unfold Organizations.GET. rewrite (run_GET_try _ _ _ _ Htok), Hacc.
  cbn. repeat split; reflexivity.
Qed.

Lemma empty_accounts_list_gives_zero_totals_witness :
  code (Organizations.GET Samples.deserted Samples.configured "2024-05-01T00:00:00.000Z")
    = 200 /\
  get_opt (body (Organizations.GET Samples.deserted Samples.configured
                                   "2024-05-01T00:00:00.000Z")) "organizations"
    = VArr [].
Proof.
  destruct (empty_accounts_list_gives_zero_totals
              Samples.deserted Samples.configured "2024-05-01T00:00:00.000Z"
              Samples.token (VObj []) eq_refl eq_refl) as (Hcode & Horgs & _).
  split; [exact Hcode | exact Horgs].
Defined.

(* ------------------------------------------------------------------ *)
(** *** The totals of a reply *)















(* ------------------------------------------------------------------ *)
(** *** Scheduling *)



(* ================================================================== *)
(** ** Further properties of the credentials route *)

(** What [POST] settles to, case by case. *)
Lemma POST_outcome (w : upstream) (s : Credentials.state) (requestBody : option value) :
  exists posted,
    run w (Credentials.POST s requestBody) = Ok posted /\
    ((code (fst posted) = 200 /\
      exists parsed clientId clientSecret,
        requestBody = Some parsed /\
        get parsed "clientId" = Ok clientId /\
        get parsed "clientSecret" = Ok clientSecret /\
        accepted w clientId clientSecret /\
        snd posted = stored s clientId clientSecret)
     \/ (In (code (fst posted)) [400; 401; 500] /\ snd posted = s)).
Proof.
  unfold Credentials.POST, Credentials.respond.
  destruct requestBody as [parsed |]; [| eexists; split; [reflexivity |]; right; cbn; auto].
  destruct (get parsed "clientId") as [clientId | e] eqn:Hid; cbn [bind];
    [| eexists; split; [reflexivity |]; right; cbn; auto].
  destruct (get parsed "clientSecret") as [clientSecret | e] eqn:Hsec; cbn [bind];
    [| eexists; split; [reflexivity |]; right; cbn; auto].
  destruct (negb (truthy clientId) || negb (truthy clientSecret));
    [eexists; split; [reflexivity |]; right; cbn; auto |].
  cbn [run].
  destruct (w _) as [e | r] eqn:Hw; [eexists; split; [reflexivity |]; right; cbn; auto |].
  destruct (ok r) eqn:Hok; cbn [negb];
    [| eexists; split; [reflexivity |]; right; cbn; auto].
  destruct (parse_json r) as [data | e] eqn:Hjson; cbn [bind];
    [| eexists; split; [reflexivity |]; right; cbn; auto].
  destruct (get data "access_token") as [token | e] eqn:Htok;
    [| eexists; split; [reflexivity |]; right; cbn; auto].
  destruct (truthy token) eqn:Htruthy; cbn [negb];
    [| eexists; split; [reflexivity |]; right; cbn; auto].
  eexists. split; [reflexivity |]. left. split; [reflexivity |].
  exists parsed, clientId, clientSecret. repeat split; auto.
  exists r, data, token. repeat split; auto.
  unfold parse_json in Hjson. destruct (json r); [now inversion Hjson | discriminate].
Qed.

(** X14.  [POST] always answers, with one of four codes, and it changes
    the environment and the credentials file only when it answers 200,
    which it does only for a client id and secret that the token
    endpoint has just accepted. *)
Theorem post_stores_only_accepted_credentials
        (w : upstream) (s : Credentials.state) (requestBody : option value) :
  exists posted,
    run w (Credentials.POST s requestBody) = Ok posted /\
    In (code (fst posted)) [200; 400; 401; 500] /\
    (code (fst posted) <> 200 -> snd posted = s) /\
    (code (fst posted) = 200 ->
     exists clientId clientSecret,
       accepted w clientId clientSecret /\ snd posted = stored s clientId clientSecret).
Proof.
  destruct (POST_outcome w s requestBody)
    as (posted & Hrun & [(Hcode & parsed & id & sec & _ & _ & _ & Hacc & Hs) | (Hcode & Hs)]).
  - exists posted. split; [exact Hrun |]. rewrite Hcode.
    split; [cbn; auto |]. split; [congruence |]. intros _. eauto.
  - exists posted. split; [exact Hrun |].
    split; [cbn in *; intuition |]. split; [auto |].
    intros H200. rewrite H200 in Hcode. cbn in Hcode.
    destruct Hcode as [H | [H | [H | []]]]; discriminate H.
Qed.

(** X15.  A [POST] whose client id or secret is missing or empty is
    answered 400 on the spot: no request goes to the token endpoint and
    nothing is stored. *)
Theorem post_without_both_fields_is_a_400
        (s : Credentials.state) (parsed clientId clientSecret : value) :
  get parsed "clientId" = Ok clientId ->
  get parsed "clientSecret" = Ok clientSecret ->
  truthy clientId = false \/ truthy clientSecret = false ->
  Credentials.POST s (Some parsed) =
    Done (Ok ({| code := 400;
                 body := VObj [("error",
                                VStr "Client ID and Client Secret are required")] |},
              s)) /\
  in_flight (Credentials.POST s (Some parsed)) = [].
Proof.
  intros Hid Hsec Hfalsy.
  assert (E : Credentials.POST s (Some parsed) =
              Done (Ok ({| code := 400;
                           body := VObj [("error",
                                          VStr "Client ID and Client Secret are required")] |},
                        s))).
  { unfold Credentials.POST, Credentials.respond. rewrite Hid, Hsec. cbn [bind].
    destruct Hfalsy as [H | H]; rewrite H; cbn [negb orb];
      [| rewrite Bool.orb_true_r]; reflexivity. }
  split; [exact E | now rewrite E].
Qed.

Lemma post_without_both_fields_is_a_400_witness :
  Credentials.POST Samples.unconfigured
                   (Some (VObj [("clientId", VStr "client-id"); ("clientSecret", VStr "")]))
  = Done (Ok ({| code := 400;
                 body := VObj [("error",
                                VStr "Client ID and Client Secret are required")] |},
              Samples.unconfigured)).
Proof.
  destruct (post_without_both_fields_is_a_400
              Samples.unconfigured
              (VObj [("clientId", VStr "client-id"); ("clientSecret", VStr "")])
              (VStr "client-id") (VStr "") eq_refl eq_refl (or_intror eq_refl))
    as (E & _).
  exact E.
Defined.

(* ------------------------------------------------------------------ *)
(** *** The credentials file *)

Lemma split_lines_nonempty (s : string) : Credentials.split_lines s <> [].
Proof.
  destruct s as [| c rest]; cbn [Credentials.split_lines]; [discriminate |].
  destruct (Ascii.eqb c Credentials.newline); [discriminate |].
  destruct (Credentials.split_lines rest); discriminate.
Qed.

Lemma join_lines_cons (line : string) (more : list string) :
  more <> [] ->
  Credentials.join_lines (line :: more)
  = line ++ String Credentials.newline (Credentials.join_lines more).
Proof.
  destruct more as [| next rest]; [congruence |]. intros _. reflexivity.
Qed.

(** Splitting a text into lines and joining the lines gives the text
    back. *)
Lemma join_after_split (s : string) :
  Credentials.join_lines (Credentials.split_lines s) = s.
Proof.
  induction s as [| c rest IH]; cbn [Credentials.split_lines]; [reflexivity |].
  destruct (Ascii.eqb_spec c Credentials.newline) as [-> | _].
  - rewrite join_lines_cons by apply split_lines_nonempty. now rewrite IH.
  - pose proof (split_lines_nonempty rest) as Hne.
    destruct (Credentials.split_lines rest) as [| line more]; [congruence |].
    destruct more as [| next more'].
    + cbn in *. now rewrite IH.
    + rewrite join_lines_cons in * by discriminate. cbn [append]. now rewrite IH.
Qed.

Lemma split_lines_line (line rest : string) :
  no_newline line = true ->
  Credentials.split_lines (line ++ String Credentials.newline rest)
  = line :: Credentials.split_lines rest.
Proof.
  induction line as [| c line IH]; cbn [no_newline append Credentials.split_lines].
  - intros _. now rewrite Ascii.eqb_refl.
  - intros H. apply Bool.andb_true_iff in H. destruct H as (Hc & Hline).
    apply Bool.negb_true_iff in Hc. rewrite Hc, (IH Hline). reflexivity.
Qed.

Lemma split_lines_single (line : string) :
  no_newline line = true -> Credentials.split_lines line = [line].
Proof.
  induction line as [| c line IH]; cbn [no_newline Credentials.split_lines];
    [reflexivity |].
  intros H. apply Bool.andb_true_iff in H. destruct H as (Hc & Hline).
  apply Bool.negb_true_iff in Hc. rewrite Hc, (IH Hline). reflexivity.
Qed.

Lemma split_after_join (lines : list string) :
  lines <> [] ->
  Forall (fun line => no_newline line = true) lines ->
  Credentials.split_lines (Credentials.join_lines lines) = lines.
Proof.
  intros Hne Hall. induction Hall as [| line more Hline Hmore IH]; [congruence |].
  destruct more as [| next rest].
  - cbn. now apply split_lines_single.
  - rewrite join_lines_cons by discriminate.
    rewrite (split_lines_line _ _ Hline), IH by discriminate. reflexivity.
Qed.

Lemma split_lines_no_newline (s : string) :
  Forall (fun line => no_newline line = true) (Credentials.split_lines s).
Proof.
  induction s as [| c rest IH]; cbn [Credentials.split_lines].
  - repeat constructor.
  - destruct (Ascii.eqb c Credentials.newline) eqn:Hc.
    + constructor; [reflexivity | exact IH].
    + destruct (Credentials.split_lines rest) as [| line more].
      * repeat constructor. cbn [no_newline]. now rewrite Hc.
      * inversion IH; subst. constructor; [| assumption].
        cbn [no_newline]. rewrite Hc. assumption.
Qed.

Lemma filter_no_newline (f : string -> bool) (lines : list string) :
  Forall (fun line => no_newline line = true) lines ->
  Forall (fun line => no_newline line = true) (filter f lines).
Proof.
  induction 1 as [| line more Hline _ IH]; cbn [filter]; [constructor |].
  destruct (f line); [constructor |]; assumption.
Qed.


Lemma filter_kept_all (lines : list string) :
  Forall (fun line => Credentials.kept line = true) (filter Credentials.kept lines).
Proof.
  induction lines as [| line more IH]; cbn [filter]; [constructor |].
  destruct (Credentials.kept line) eqn:E; [constructor |]; assumption.
Qed.













Lemma kept_empty_line : Credentials.kept EmptyString = true.
Proof. reflexivity. Qed.

Lemma filter_all {A : Type} (f : A -> bool) (l : list A) :
  Forall (fun x => f x = true) l -> filter f l = l.
Proof.
  induction 1 as [| x rest Hx _ IH]; cbn [filter]; [reflexivity |].
  now rewrite Hx, IH.
Qed.

(** Reading back a file written from lines that are kept. *)
Lemma reread_kept (lines : list string) :
  Forall (fun line => no_newline line = true) lines ->
  Forall (fun line => Credentials.kept line = true) lines ->
  Forall foreign (Credentials.split_lines (Credentials.join_lines lines)) /\
  Credentials.join_lines
    (filter Credentials.kept (Credentials.split_lines (Credentials.join_lines lines)))
  = Credentials.join_lines lines.
Proof.
  intros Hlines Hkept. destruct lines as [| line more].
  - split; [repeat constructor | reflexivity].
  - rewrite split_after_join by (assumption || discriminate).
    split; [exact Hkept | now rewrite filter_all].
Qed.

Lemma deleted_file (s : Credentials.state) :
  Credentials.file (snd (Credentials.DELETE s))
  = match Credentials.file s with
    | Some envContent =>
        Some (Credentials.join_lines
                (filter Credentials.kept (Credentials.split_lines envContent)))
    | None => None
    end.
Proof. reflexivity. Qed.

(** X17.  [DELETE] leaves no credential line in the file, and a second
    [DELETE] changes nothing more; a file that does not exist is not
    created. *)
Theorem delete_clears_the_file_once_and_for_all (s : Credentials.state) :
  Forall foreign (Credentials.split_lines (content (snd (Credentials.DELETE s)))) /\
  snd (Credentials.DELETE (snd (Credentials.DELETE s))) = snd (Credentials.DELETE s) /\
  (Credentials.file s = None -> Credentials.file (snd (Credentials.DELETE s)) = None).
Proof.
  destruct s as [env [envContent |]]; cbn [Credentials.DELETE snd content Credentials.file].
  - destruct (reread_kept (filter Credentials.kept (Credentials.split_lines envContent)))
      as (Hclean & Hagain).
    + apply filter_no_newline, split_lines_no_newline.
    + apply filter_kept_all.
    + split; [exact Hclean |]. split; [| discriminate]. now rewrite Hagain.
  - split; [repeat constructor |]. split; reflexivity.
Qed.

(** X18.  [DELETE] rewrites the file through [split] and [join]; on a
    file that holds no credential line this leaves the text exactly as it
    was, whatever its line breaks and empty lines. *)
Theorem delete_leaves_a_clean_file_untouched
        (s : Credentials.state) (envContent : string) :
  Credentials.file s = Some envContent ->
  Forall foreign (Credentials.split_lines envContent) ->
  Credentials.file (snd (Credentials.DELETE s)) = Some envContent.
Proof.
  intros Hfile Hclean. rewrite deleted_file, Hfile.
  now rewrite (filter_all _ _ Hclean), join_after_split.
Qed.

Lemma delete_leaves_a_clean_file_untouched_witness :
  Credentials.file (snd (Credentials.DELETE Samples.unconfigured))
  = Some "NODE_ENV=development".
Proof.
  apply delete_leaves_a_clean_file_untouched; [reflexivity |].
  repeat constructor.
Defined.



(* ------------------------------------------------------------------ *)
(** ** Properties of the dashboard route *)

Lemma run_fetchMspAccounts (w : upstream) (token : value) :
  run w (Dashboard.fetchMspAccounts token) =
  match w (msp_accounts_request token) with
  | Rejected e => Throw e
  | Responded r =>
      if negb (ok r) then
        Throw (Error ("Failed to fetch MSP accounts (" ++ show_Z (status r) ++ "): "
                      ++ Dashboard.text_or_status r))
      else match parse_json r with
           | Throw _ => Throw (Error "Invalid JSON response from MSP accounts endpoint")
           | Ok data => let* payload := get data "data" in Ok (or payload (VArr []))
           end
  end.
Proof.
  unfold Dashboard.fetchMspAccounts. cbn [run]. fold (msp_accounts_request token).
  destruct (w (msp_accounts_request token)) as [e | r]; [reflexivity |].
  destruct (ok r); cbn [negb]; [| reflexivity].
  destruct (parse_json r); reflexivity.
Qed.

Lemma run_fetchAllFindings (w : upstream) (token : value) :
  run w (Dashboard.fetchAllFindings token) =
  match w (msp_findings_request token) with
  | Rejected e => Throw e
  | Responded r =>
      if negb (ok r) then
        if status r =? 403 then
          Throw (Error
            "Permission denied to fetch findings. Please check your API permissions.")
        else
          Throw (Error ("Failed to fetch findings (" ++ show_Z (status r) ++ "): "
                        ++ Dashboard.text_or_status r))
      else match parse_json r with
           | Throw _ => Throw (Error "Invalid JSON response from findings endpoint")
           | Ok data => let* payload := get data "data" in Ok (or payload (VArr []))
           end
  end.
Proof.
  unfold Dashboard.fetchAllFindings. cbn [run]. fold (msp_findings_request token).
  destruct (w (msp_findings_request token)) as [e | r]; [reflexivity |].
  destruct (ok r); cbn [negb]; [| destruct (status r =? 403); reflexivity].
  destruct (parse_json r); reflexivity.
Qed.

Lemma or_array_readable (payload : value) : readable (or payload (VArr [])).
Proof.
  unfold or. destruct (truthy payload) eqn:Ht;
    [now apply truthy_readable | apply array_readable].
Qed.

(** What either list fetch leaves in its variable can be read. *)
Lemma accounts_readable (w : upstream) (token : value) :
  readable (Dashboard.or_empty (run w (Dashboard.fetchMspAccounts token))).
Proof.
  rewrite run_fetchMspAccounts.
  destruct (w (msp_accounts_request token)) as [e | r]; [apply array_readable |].
  destruct (ok r); cbn [negb]; [| apply array_readable].
  destruct (parse_json r) as [data | e]; [| apply array_readable].
  destruct (get data "data") as [payload | e]; cbn [bind Dashboard.or_empty];
    [apply or_array_readable | apply array_readable].
Qed.

Lemma findings_readable (w : upstream) (token : value) :
  readable (Dashboard.or_empty (run w (Dashboard.fetchAllFindings token))).
Proof.
  rewrite run_fetchAllFindings.
  destruct (w (msp_findings_request token)) as [e | r]; [apply array_readable |].
  destruct (ok r); cbn [negb];
    [| destruct (status r =? 403); apply array_readable].
  destruct (parse_json r) as [data | e]; [| apply array_readable].
  destruct (get data "data") as [payload | e]; cbn [bind Dashboard.or_empty];
    [apply or_array_readable | apply array_readable].
Qed.

Lemma accounts_failed (w : upstream) (token : value) :
  listing_failed (w (msp_accounts_request token)) ->
  Dashboard.or_empty (run w (Dashboard.fetchMspAccounts token)) = VArr [].
Proof.
  rewrite run_fetchMspAccounts.
  destruct (w (msp_accounts_request token)) as [e | r]; cbn [listing_failed];
    [reflexivity |].
  intros [Hok | (e & He)].
  - now rewrite Hok.
  - destruct (ok r); cbn [negb]; [| reflexivity].
    destruct (parse_json r) as [data | e']; [| reflexivity].
    cbn [bind] in He. rewrite He. reflexivity.
Qed.

Lemma findings_failed (w : upstream) (token : value) :
  listing_failed (w (msp_findings_request token)) ->
  Dashboard.or_empty (run w (Dashboard.fetchAllFindings token)) = VArr [].
Proof.
  rewrite run_fetchAllFindings.
  destruct (w (msp_findings_request token)) as [e | r]; cbn [listing_failed];
    [reflexivity |].
  intros [Hok | (e & He)].
  - rewrite Hok. cbn [negb]. now destruct (status r =? 403).
  - destruct (ok r); cbn [negb]; [| now destruct (status r =? 403)].
    destruct (parse_json r) as [data | e']; [| reflexivity].
    cbn [bind] in He. rewrite He. reflexivity.
Qed.

(** The reply once the token is there. *)
Lemma dashboard_reply (w : upstream) (env : process_env) (timestamp : string)
      (token : value) :
  run w (Dashboard.getAccessToken env) = Ok token ->
  exists accountsCount findingsCount,
    get (Dashboard.or_empty (run w (Dashboard.fetchMspAccounts token))) "length"
    = Ok accountsCount /\
    get (Dashboard.or_empty (run w (Dashboard.fetchAllFindings token))) "length"
    = Ok findingsCount /\
    Dashboard.GET w env timestamp =
      {| code := 200;
         body :=
           VObj [ ("accounts",
                   Dashboard.or_empty (run w (Dashboard.fetchMspAccounts token)));
                  ("findings",
                   Dashboard.or_empty (run w (Dashboard.fetchAllFindings token)));
                  ("debug",
                   VObj [ ("accountsCount", accountsCount);
                          ("findingsCount", findingsCount);
                          ("timestamp", VStr timestamp) ]) ] |}.
Proof.
  intros Htok.
  destruct (accounts_readable w token "length") as [na Hna].
  destruct (findings_readable w token "length") as [nf Hnf].
  exists na, nf. split; [exact Hna |]. split; [exact Hnf |].
  unfold Dashboard.GET, Dashboard.GET_try.
  rewrite run_andThen, Htok, run_andThen, run_andThen. cbn [run].
  rewrite Hna, Hnf. reflexivity.
Qed.

Lemma dashboard_no_token (w : upstream) (env : process_env) (timestamp : string)
      (e : exn) :
  run w (Dashboard.getAccessToken env) = Throw e ->
  Dashboard.GET w env timestamp = Dashboard.GET_reply env timestamp (Throw e).
Proof.
  intros Htok. unfold Dashboard.GET, Dashboard.GET_try.
  now rewrite run_andThen, Htok.
Qed.

(** X20.  The dashboard route answers 200 or 500, and 500 exactly when no
    token could be obtained: then the body carries the message of that
    error.  No failure of the two list fetches ever turns into a 500. *)
Theorem dashboard_fails_only_without_a_token
        (w : upstream) (env : process_env) (timestamp : string) :
  (code (Dashboard.GET w env timestamp) = 200 /\
   exists token, run w (Dashboard.getAccessToken env) = Ok token) \/
  (code (Dashboard.GET w env timestamp) = 500 /\
   exists e, run w (Dashboard.getAccessToken env) = Throw e /\
             get_opt (body (Dashboard.GET w env timestamp)) "error" = VStr (message e)).
Proof.
  destruct (run w (Dashboard.getAccessToken env)) as [token | e] eqn:Htok.
  - left. destruct (dashboard_reply w env timestamp token Htok) as (na & nf & _ & _ & ->).
    split; [reflexivity | eauto].
  - right. rewrite (dashboard_no_token w env timestamp e Htok).
    split; [reflexivity |]. exists e. split; reflexivity.
Qed.

(** X21.  With a token, a list fetch that fails leaves its list empty and
    its count at zero in a 200 reply: this holds for the accounts and for
    the findings, each on its own. *)
Theorem failed_listing_becomes_an_empty_list
        (w : upstream) (env : process_env) (timestamp : string) (token : value) :
  run w (Dashboard.getAccessToken env) = Ok token ->
  code (Dashboard.GET w env timestamp) = 200 /\
  (listing_failed (w (msp_accounts_request token)) ->
   get_opt (body (Dashboard.GET w env timestamp)) "accounts" = VArr [] /\
   get_opt (get_opt (body (Dashboard.GET w env timestamp)) "debug") "accountsCount"
   = VNum 0) /\
  (listing_failed (w (msp_findings_request token)) ->
   get_opt (body (Dashboard.GET w env timestamp)) "findings" = VArr [] /\
   get_opt (get_opt (body (Dashboard.GET w env timestamp)) "debug") "findingsCount"
   = VNum 0).
Proof.
  intros Htok.
  destruct (dashboard_reply w env timestamp token Htok) as (na & nf & Hna & Hnf & ->).
  split; [reflexivity |]. split; intros Hfailed.
  - rewrite (accounts_failed w token Hfailed) in *.
    cbn in Hna. injection Hna as <-. split; reflexivity.
  - rewrite (findings_failed w token Hfailed) in *.
    cbn in Hnf. injection Hnf as <-. split; reflexivity.
Qed.

Lemma failed_listing_becomes_an_empty_list_witness :
  code (Dashboard.GET Samples.accepting Samples.configured "t") = 200 /\
  get_opt (body (Dashboard.GET Samples.accepting Samples.configured "t")) "accounts"
  = VArr [] /\
  get_opt (body (Dashboard.GET Samples.accepting Samples.configured "t")) "findings"
  = VArr [].
Proof.
  destruct (failed_listing_becomes_an_empty_list
              Samples.accepting Samples.configured "t" Samples.token eq_refl)
    as (Hcode & Haccounts & Hfindings).
  split; [exact Hcode |]. split.
  - exact (proj1 (Haccounts I)).
  - exact (proj1 (Hfindings I)).
Defined.

(** X22.  What the accounts endpoint answers has no effect on the
    findings of the reply: two upstreams that differ only there give the
    same status, the same findings and the same findings count. *)
Theorem findings_do_not_depend_on_accounts
        (w w' : upstream) (env : process_env) (timestamp : string) :
  (forall rq, target rq <> Dashboard.API_BASE_URL ++ "/msp/accounts" -> w' rq = w rq) ->
  code (Dashboard.GET w' env timestamp) = code (Dashboard.GET w env timestamp) /\
  get_opt (body (Dashboard.GET w' env timestamp)) "findings"
  = get_opt (body (Dashboard.GET w env timestamp)) "findings" /\
  get_opt (get_opt (body (Dashboard.GET w' env timestamp)) "debug") "findingsCount"
  = get_opt (get_opt (body (Dashboard.GET w env timestamp)) "debug") "findingsCount".
Proof.
  intros Hagree.
  assert (Htoken : run w' (Dashboard.getAccessToken env)
                   = run w (Dashboard.getAccessToken env)).
  { unfold Dashboard.getAccessToken.
    destruct (negb _ || negb _); [reflexivity |]. cbn [run].
    rewrite Hagree by discriminate.
    destruct (w (Post _ _)) as [e | r]; [reflexivity |].
    destruct (negb (ok r)); [reflexivity |].
    destruct (parse_json r); reflexivity. }
  assert (Hfindings : forall token,
             run w' (Dashboard.fetchAllFindings token)
             = run w (Dashboard.fetchAllFindings token)).
  { intros token. rewrite !run_fetchAllFindings.
    now rewrite Hagree by discriminate. }
  destruct (run w (Dashboard.getAccessToken env)) as [token | e] eqn:Htok.
  - destruct (dashboard_reply w env timestamp token Htok) as (na & nf & _ & Hnf & ->).
    destruct (dashboard_reply w' env timestamp token Htoken)
      as (na' & nf' & _ & Hnf' & ->).
    rewrite Hfindings in *. assert (nf' = nf) by congruence. subst nf'.
    repeat split.
  - rewrite (dashboard_no_token w env timestamp e Htok).
    rewrite (dashboard_no_token w' env timestamp e Htoken).
    repeat split.
Qed.

Lemma findings_do_not_depend_on_accounts_witness :
  get_opt (body (Dashboard.GET Samples.holed Samples.configured "t")) "findings"
  = get_opt (body (Dashboard.GET Samples.accepting Samples.configured "t")) "findings".
Proof.
  refine (proj1 (proj2 (findings_do_not_depend_on_accounts
                          Samples.accepting Samples.holed Samples.configured "t" _))).
  intros [url payload | url authorization] Hrq; [reflexivity |].
  cbn [target] in Hrq.
  unfold Samples.holed, Samples.accepting, Samples.token_endpoint, Samples.routes,
    Samples.nowhere.
  cbn [find fst snd].
  destruct (String.eqb_spec url Samples.accounts_url) as [-> | _];
    [elim Hrq |]; reflexivity.
Defined.

(** X23.  The two routes read the same accounts answer differently.  A 2xx
    answer whose [status] is not "OK" makes the organizations route fail
    with a 500, while the dashboard route, which never looks at [status],
    passes its [data] on in a 200. *)
Theorem routes_differ_on_the_envelope_status
        (w : upstream) (env : process_env) (timestamp : string)
        (token : value) (r : response) (answer payload st : value) :
  run w (Organizations.getAccessToken env) = Ok token ->
  run w (Dashboard.getAccessToken env) = Ok token ->
  w (accounts_request token) = Responded r -> ok r = true -> json r = Some answer ->
  get answer "data" = Ok payload -> truthy payload = true ->
  get answer "status" = Ok st -> is_str st "OK" = false ->
  Organizations.GET w env timestamp =
    {| code := 500;
       body := VObj [ ("error", VStr "Invalid response format from MSP accounts endpoint");
                      ("timestamp", VStr timestamp) ] |} /\
  code (Dashboard.GET w env timestamp) = 200 /\
  get_opt (body (Dashboard.GET w env timestamp)) "accounts" = payload.
Proof.
  intros Horg Hdash Hw Hok Hjson Hdata Htruthy Hst Hnot.
  split.
  - unfold Organizations.GET. rewrite (run_GET_try w env timestamp token Horg), Hw.
    unfold Organizations.unwrap_accounts, parse_json.
    rewrite Hok, Hjson. cbn [negb bind]. rewrite Hst, Hdata. cbn [bind].
    rewrite Hnot. reflexivity.
  - assert (Hpassed : Dashboard.or_empty (run w (Dashboard.fetchMspAccounts token))
                      = payload).
    { rewrite run_fetchMspAccounts.
      change (msp_accounts_request token) with (accounts_request token). rewrite Hw.
      unfold parse_json. rewrite Hok, Hjson. cbn [negb bind]. rewrite Hdata.
      cbn [bind Dashboard.or_empty]. unfold or. now rewrite Htruthy. }
    destruct (dashboard_reply w env timestamp token Hdash) as (na & nf & _ & _ & ->).
    rewrite Hpassed. split; reflexivity.
Qed.

Lemma routes_differ_on_the_envelope_status_witness :
  code (Organizations.GET Samples.unstamped Samples.configured "t") = 500 /\
  code (Dashboard.GET Samples.unstamped Samples.configured "t") = 200 /\
  get_opt (body (Dashboard.GET Samples.unstamped Samples.configured "t")) "accounts"
  = VArr [Samples.acme_account].
Proof.
  destruct (routes_differ_on_the_envelope_status
              Samples.unstamped Samples.configured "t" Samples.token
              (Samples.json_response 200 (VObj [("data", VArr [Samples.acme_account])]))
              (VObj [("data", VArr [Samples.acme_account])])
              (VArr [Samples.acme_account]) VUndef
              eq_refl eq_refl eq_refl eq_refl eq_refl eq_refl eq_refl eq_refl eq_refl)
    as (Horg & Hcode & Haccounts).
  rewrite Horg. split; [reflexivity |]. split; assumption.
Defined.

(* ------------------------------------------------------------------ *)
(** ** From the dashboard route to the dashboard component *)

Lemma prefix_app (sub rest : string) : String.prefix sub (sub ++ rest) = true.
Proof.
  induction sub as [| a sub IH]; cbn [append].
  - now destruct rest.
  - cbn [String.prefix]. destruct (ascii_dec a a) as [_ | Hne]; [exact IH | now elim Hne].
Qed.

Lemma includes_prefix (sub rest : string) : str_includes (sub ++ rest) sub = true.
Proof.
  unfold str_includes. destruct (sub ++ rest) as [| c more] eqn:E.
  - destruct sub; [reflexivity | discriminate].
  - cbn [String.index]. rewrite <- E, prefix_app. reflexivity.
Qed.

(** What [fetchData] makes of a 500 of the dashboard route. *)
Lemma fetchData_failure (s : DashboardView.state) (env : process_env)
      (timestamp msg : string) :
  DashboardView.fetchData
    s (DashboardView.served (Dashboard.GET_reply env timestamp (Throw (Error msg))))
  = {| DashboardView.data := DashboardView.data s;
       DashboardView.error :=
         Some (if String.eqb msg "" then "Failed to fetch data" else msg);
       DashboardView.credentialsError :=
         str_includes msg "BLUMIRA_CLIENT_ID"
         || str_includes msg "BLUMIRA_CLIENT_SECRET"
         || str_includes msg "Authentication failed";
       DashboardView.loading := false;
       DashboardView.refreshing := false |}.
Proof.
  unfold DashboardView.fetchData, DashboardView.served, Dashboard.GET_reply.
  cbn -[str_includes].
  destruct (str_includes msg "BLUMIRA_CLIENT_ID"); cbn -[str_includes];
    [| destruct (str_includes msg "BLUMIRA_CLIENT_SECRET"); cbn -[str_includes]].
  all: unfold or, truthy; destruct (String.eqb msg ""); reflexivity.
Qed.

Lemma wire_object (props : list (string * value)) :
  exists props', wire (VObj props) = VObj props'.
Proof. cbn [wire]. eauto. Qed.

(** What [fetchData] makes of a 200 of the dashboard route. *)
Lemma fetchData_success (s : DashboardView.state) (props : list (string * value)) :
  DashboardView.fetchData s (DashboardView.served {| code := 200; body := VObj props |})
  = {| DashboardView.data := wire (VObj props);
       DashboardView.error := None;
       DashboardView.credentialsError := false;
       DashboardView.loading := false;
       DashboardView.refreshing := false |}.
Proof.
  unfold DashboardView.fetchData, DashboardView.served, parse_json.
  cbn [json code body status ok Z.leb Z.compare Pos.compare Pos.compare_cont andb negb].
  destruct (wire_object props) as [props' ->]. reflexivity.
Qed.

Lemma token_refused (w : upstream) (env : process_env) (id secret : string) (r : response) :
  BLUMIRA_CLIENT_ID env = Some id -> id <> EmptyString ->
  BLUMIRA_CLIENT_SECRET env = Some secret -> secret <> EmptyString ->
  w (token_request id secret) = Responded r -> ok r = false ->
  run w (Dashboard.getAccessToken env)
  = Throw (Error ("Authentication failed" ++
                  (" (" ++ show_Z (status r) ++ "): " ++ Dashboard.text_or_status r))).
Proof.
  intros Hid Hid' Hsec Hsec' Hw Hok. unfold Dashboard.getAccessToken.
  rewrite Hid, Hsec. cbn [env_value truthy].
  apply String.eqb_neq in Hid', Hsec'. rewrite Hid', Hsec'. cbn [negb orb run].
  change (Post Dashboard.AUTH_URL _) with (token_request id secret).
  rewrite Hw, Hok. reflexivity.
Qed.

Lemma token_not_configured (w : upstream) (env : process_env) :
  truthy (env_value (BLUMIRA_CLIENT_ID env)) = false \/
  truthy (env_value (BLUMIRA_CLIENT_SECRET env)) = false ->
  run w (Dashboard.getAccessToken env)
  = Throw (Error
      "BLUMIRA_CLIENT_ID and BLUMIRA_CLIENT_SECRET environment variables are required").
Proof.
  intros Hmissing. unfold Dashboard.getAccessToken.
  destruct Hmissing as [H | H]; rewrite H; cbn [negb orb];
    [| rewrite Bool.orb_true_r]; reflexivity.
Qed.

(** X24.  When the credentials are missing, or the token endpoint turns
    them down, the dashboard component ends with [credentialsError] set and
    with an error message, and keeps the data it had: the page then shows
    the credentials setup instead of a plain error. *)
Theorem credentials_problem_opens_the_setup
        (w : upstream) (env : process_env) (timestamp : string)
        (s : DashboardView.state) :
  credentials_problem w env ->
  let s' := DashboardView.fetchData
              s (DashboardView.served (Dashboard.GET w env timestamp)) in
  DashboardView.credentialsError s' = true /\
  (exists msg, DashboardView.error s' = Some msg) /\
  DashboardView.data s' = DashboardView.data s.
Proof.
  intros Hproblem.
  assert (Hthrown : exists msg,
             run w (Dashboard.getAccessToken env) = Throw (Error msg) /\
             str_includes msg "BLUMIRA_CLIENT_ID"
             || str_includes msg "BLUMIRA_CLIENT_SECRET"
             || str_includes msg "Authentication failed" = true).
  { assert (Hmissing :
              truthy (env_value (BLUMIRA_CLIENT_ID env)) = false \/
              truthy (env_value (BLUMIRA_CLIENT_SECRET env)) = false ->
              exists msg,
                run w (Dashboard.getAccessToken env) = Throw (Error msg) /\
                str_includes msg "BLUMIRA_CLIENT_ID"
                || str_includes msg "BLUMIRA_CLIENT_SECRET"
                || str_includes msg "Authentication failed" = true).
    { intros H. eexists. split; [now apply token_not_configured | reflexivity]. }
    destruct Hproblem as [H | [H | (id & secret & r & Hid & Hsec & Hw & Hok)]];
      [apply Hmissing; now left | apply Hmissing; now right |].
    destruct (String.eqb_spec id "") as [-> | Hid'].
    { apply Hmissing. left. now rewrite Hid. }
    destruct (String.eqb_spec secret "") as [-> | Hsec'].
    { apply Hmissing. right. now rewrite Hsec. }
    eexists. split; [now apply (token_refused w env id secret r) |].
    rewrite includes_prefix. apply Bool.orb_true_r. }
  destruct Hthrown as (msg & Hrun & Hflag).
  cbv zeta. rewrite (dashboard_no_token w env timestamp _ Hrun), fetchData_failure.
  cbn [DashboardView.credentialsError DashboardView.error DashboardView.data].
  split; [exact Hflag |]. split; [eauto | reflexivity].
Qed.

Lemma credentials_problem_opens_the_setup_witness :
  DashboardView.credentialsError
    (DashboardView.fetchData
       Samples.blank (DashboardView.served
                        (Dashboard.GET Samples.refusing Samples.configured "t")))
  = true.
Proof.
  refine (proj1 (credentials_problem_opens_the_setup
                   Samples.refusing Samples.configured "t" Samples.blank _)).
  right. right. exists "client-id", "s3cret". eexists. repeat split.
Defined.

(** X25.  When the token endpoint answers within 2xx but its body is not
    JSON or holds no token, the component shows a plain error:
    [credentialsError] stays unset, although no token could be had. *)
Theorem missing_token_is_a_plain_error
        (w : upstream) (env : process_env) (timestamp : string)
        (s : DashboardView.state) :
  token_missing w env ->
  let s' := DashboardView.fetchData
              s (DashboardView.served (Dashboard.GET w env timestamp)) in
  DashboardView.credentialsError s' = false /\
  In (DashboardView.error s')
     [ Some "Invalid JSON response from authentication endpoint";
       Some "No access token received from authentication endpoint" ] /\
  DashboardView.data s' = DashboardView.data s.
Proof.
  intros (id & secret & r & Hid & Hid' & Hsec & Hsec' & Hw & Hok & Hbody).
  assert (Hthrown :
            run w (Dashboard.getAccessToken env)
            = Throw (Error "Invalid JSON response from authentication endpoint") \/
            run w (Dashboard.getAccessToken env)
            = Throw (Error "No access token received from authentication endpoint")).
  { unfold Dashboard.getAccessToken. rewrite Hid, Hsec. cbn [env_value truthy].
    apply String.eqb_neq in Hid', Hsec'. rewrite Hid', Hsec'. cbn [negb orb run].
    change (Post Dashboard.AUTH_URL _) with (token_request id secret).
    rewrite Hw, Hok. cbn [negb]. unfold parse_json.
    destruct Hbody as [-> | (data & token & -> & Htoken & Hfalsy)]; [now left |].
    right. cbn [run]. rewrite Htoken. cbn [bind]. now rewrite Hfalsy. }
  cbv zeta.
  destruct Hthrown as [Hrun | Hrun];
    rewrite (dashboard_no_token w env timestamp _ Hrun), fetchData_failure;
    cbn [DashboardView.credentialsError DashboardView.error DashboardView.data];
    (split; [reflexivity |]); (split; [| reflexivity]).
  - left. reflexivity.
  - right. left. reflexivity.
Qed.

Lemma missing_token_is_a_plain_error_witness :
  DashboardView.credentialsError
    (DashboardView.fetchData
       Samples.blank
       (DashboardView.served
          (Dashboard.GET (Samples.token_endpoint Samples.tokenless Samples.nowhere)
                         Samples.configured "t")))
  = false.
Proof.
  refine (proj1 (missing_token_is_a_plain_error
                   (Samples.token_endpoint Samples.tokenless Samples.nowhere)
                   Samples.configured "t" Samples.blank _)).
  exists "client-id", "s3cret", Samples.tokenless.
  repeat split; try discriminate.
  right. exists (VObj [("token_type", VStr "Bearer"); ("expires_in", VNum 3600)]), VUndef.
  repeat split.
Defined.

(** X26.  The component ends without an error exactly when the route
    obtained a token; its data is then the body of the reply as it comes
    through JSON, and [credentialsError] is unset.  A failure of the two
    list fetches is therefore never shown as an error. *)
Theorem view_reports_an_error_only_without_a_token
        (w : upstream) (env : process_env) (timestamp : string)
        (s : DashboardView.state) :
  let s' := DashboardView.fetchData
              s (DashboardView.served (Dashboard.GET w env timestamp)) in
  (DashboardView.error s' = None <->
   exists token, run w (Dashboard.getAccessToken env) = Ok token) /\
  (DashboardView.error s' = None ->
   DashboardView.data s' = wire (body (Dashboard.GET w env timestamp)) /\
   DashboardView.credentialsError s' = false).
Proof.
  cbv zeta.
  destruct (run w (Dashboard.getAccessToken env)) as [token | [msg]] eqn:Htok.
  - destruct (dashboard_reply w env timestamp token Htok) as (na & nf & _ & _ & ->).
    rewrite fetchData_success.
    cbn [DashboardView.error DashboardView.data DashboardView.credentialsError body].
    split; [split; eauto |]. intros _. split; reflexivity.
  - rewrite (dashboard_no_token w env timestamp _ Htok), fetchData_failure.
    cbn [DashboardView.error]. split; [| discriminate].
    split; [discriminate | intros [token Habsurd]; discriminate].
Qed.

(* ------------------------------------------------------------------ *)
(** ** The critical-findings card on the two tabs *)


(* ------------------------------------------------------------------ *)
(** ** The device badges of the organizations view and the route's counts *)

Lemma shows_cases (d : value) :
  readable d ->
  shows OrganizationsView.Excluded d = has "is_excluded" d /\
  shows OrganizationsView.Isolated d
  = negb (has "is_excluded" d) && has "is_isolated" d /\
  shows OrganizationsView.Sleeping d
  = negb (has "is_excluded" d) && negb (has "is_isolated" d) && has "is_sleeping" d /\
  shows OrganizationsView.Online d
  = negb (has "is_excluded" d) && negb (has "is_isolated" d)
    && negb (has "is_sleeping" d).
Proof.
  intros Hd. unfold shows, OrganizationsView.getDeviceStatusBadge, has.
  destruct (Hd "is_excluded") as (x & Hx). destruct (Hd "is_isolated") as (y & Hy).
  destruct (Hd "is_sleeping") as (z & Hz).
  rewrite Hx, Hy, Hz, (get_opt_get _ _ _ Hx), (get_opt_get _ _ _ Hy),
    (get_opt_get _ _ _ Hz).
  cbn [bind]. destruct (truthy x); [repeat split |].
  cbn [bind]. destruct (truthy y); [repeat split |].
  cbn [bind]. destruct (truthy z); repeat split.
Qed.

Lemma badge_counts (devices : list value) :
  Forall readable devices ->
  badged OrganizationsView.Excluded devices = count (has "is_excluded") devices /\
  badged OrganizationsView.Isolated devices <= count (has "is_isolated") devices /\
  badged OrganizationsView.Sleeping devices <= count (has "is_sleeping") devices /\
  count online devices
  <= badged OrganizationsView.Online devices
     + badged OrganizationsView.Excluded devices
     + badged OrganizationsView.Isolated devices /\
  badged OrganizationsView.Excluded devices + badged OrganizationsView.Isolated devices
  + badged OrganizationsView.Sleeping devices + badged OrganizationsView.Online devices
  = Z.of_nat (List.length devices).
Proof.
  unfold badged.
  induction 1 as [| d rest Hd _ (IHe & IHi & IHs & IHo & IHall)].
  - unfold count. cbn. lia.
  - rewrite !count_cons.
    destruct (shows_cases d Hd) as (-> & -> & -> & ->).
    change (online d) with (negb (has "is_sleeping" d) && has "alive" d).
    change (List.length (d :: rest)) with (S (List.length rest)).
    destruct (has "is_excluded" d), (has "is_isolated" d), (has "is_sleeping" d),
      (has "alive" d); cbn [negb andb]; lia.
Qed.

(** X28.  The badges the organizations view puts on the devices against
    the counts the route computes over the same devices.  Every device
    gets exactly one badge; as many devices are badged Excluded as the
    route counts excluded, while the Isolated and Sleeping badges can be
    fewer than the route's counts, and a device the route counts online is
    never badged Sleeping. *)
Theorem device_badges_against_the_counts (devices : list value) :
  Forall readable devices ->
  exists excluded isolated sleeping onlineDevices,
    count_if (Organizations.flag "is_excluded") devices = Ok excluded /\
    count_if (Organizations.flag "is_isolated") devices = Ok isolated /\
    count_if (Organizations.flag "is_sleeping") devices = Ok sleeping /\
    count_if Organizations.is_online devices = Ok onlineDevices /\
    badged OrganizationsView.Excluded devices = excluded /\
    badged OrganizationsView.Isolated devices <= isolated /\
    badged OrganizationsView.Sleeping devices <= sleeping /\
    onlineDevices
    <= badged OrganizationsView.Online devices
       + badged OrganizationsView.Excluded devices
       + badged OrganizationsView.Isolated devices /\
    badged OrganizationsView.Excluded devices + badged OrganizationsView.Isolated devices
    + badged OrganizationsView.Sleeping devices + badged OrganizationsView.Online devices
    = Z.of_nat (List.length devices).
Proof.
  intros Hread.
  destruct (count_if_total _ devices (flag_total "is_excluded") Hread) as (e & He).
  destruct (count_if_total _ devices (flag_total "is_isolated") Hread) as (i & Hi).
  destruct (count_if_total _ devices (flag_total "is_sleeping") Hread) as (s & Hs).
  destruct (count_if_total _ devices is_online_total Hread) as (o & Ho).
  exists e, i, s, o. repeat (split; [assumption |]).
  rewrite (count_if_count _ _ _ (flag_has "is_excluded") _ He).
  rewrite (count_if_count _ _ _ (flag_has "is_isolated") _ Hi).
  rewrite (count_if_count _ _ _ (flag_has "is_sleeping") _ Hs).
  rewrite (count_if_count _ _ _ is_online_online _ Ho).
  destruct (badge_counts devices Hread) as (H1 & H2 & H3 & H4 & H5).
  repeat split; assumption.
Qed.

Lemma device_badges_against_the_counts_witness :
  exists excluded isolated sleeping onlineDevices,
    count_if (Organizations.flag "is_excluded") [Samples.parked_device] = Ok excluded /\
    count_if (Organizations.flag "is_isolated") [Samples.parked_device] = Ok isolated /\
    count_if (Organizations.flag "is_sleeping") [Samples.parked_device] = Ok sleeping /\
    count_if Organizations.is_online [Samples.parked_device] = Ok onlineDevices /\
    badged OrganizationsView.Excluded [Samples.parked_device] = excluded /\
    badged OrganizationsView.Isolated [Samples.parked_device] <= isolated /\
    badged OrganizationsView.Sleeping [Samples.parked_device] <= sleeping /\
    onlineDevices
    <= badged OrganizationsView.Online [Samples.parked_device]
       + badged OrganizationsView.Excluded [Samples.parked_device]
       + badged OrganizationsView.Isolated [Samples.parked_device] /\
    badged OrganizationsView.Excluded [Samples.parked_device]
    + badged OrganizationsView.Isolated [Samples.parked_device]
    + badged OrganizationsView.Sleeping [Samples.parked_device]
    + badged OrganizationsView.Online [Samples.parked_device]
    = Z.of_nat (List.length [Samples.parked_device]).
Proof.
  apply device_badges_against_the_counts.
  constructor; [| constructor]. apply object_readable. eexists. reflexivity.
Defined.
